(** * TracRelationsPlugin: the ticket relations component

    A shallow embedding of [tracrelations/ticket.py]: the [TktRelation]
    rendering method and the [TicketRelations] component (ticket
    manipulator, ticket change listener and request handler), together
    with the properties of the relation store that the specification
    states about them.

    Python values that can be [None] are options, the database tables are
    lists of rows, dictionaries are finite maps, and code that can raise
    runs in an error monad whose failure carries the exception class. *)

From Stdlib Require Import NArith DecimalString DecimalN.
From stdpp Require Import base strings list gmap sorting.

Open Scope string_scope.

(** ** Python preliminaries *)

(** The exception classes the component raises, catches or lets through. *)
Inductive exn :=
  | TypeError
  | IndexError
  | AttributeError
  | ValueError
  | ValidationError
  | ResourceExistsError
  | ResourceNotFound
  | PermissionError.

#[global] Instance exn_eq_dec : EqDecision exn.
Proof. solve_decision. Defined.

(** A computation that returns a value or raises. *)
Inductive result (A : Type) :=
  | Ok (a : A)
  | Raise (e : exn).
Arguments Ok {A} a.
Arguments Raise {A} e.

#[global] Instance result_ret : MRet result := fun _ a => Ok a.
#[global] Instance result_bind : MBind result := fun _ _ f m =>
  match m with
  | Ok a => f a
  | Raise e => Raise e
  end.

(** A [str] or [None]. *)
Abbreviation pystr := (option string).

(** [str(v)], as [str.format] and [%s] apply it to a field. *)
Definition py_str (v : pystr) : string := default "None" v.

(** Truth value of a [str] or [None]. *)
Definition truthy (v : pystr) : bool :=
  match v with
  | Some (String _ _) => true
  | _ => false
  end.

(** [s.strip(chars)]: drop the characters of [chars] from both ends. *)
Fixpoint lstrip (chars : list Ascii.ascii) (s : string) : string :=
  match s with
  | String c s' => if bool_decide (c ∈ chars) then lstrip chars s' else s
  | EmptyString => EmptyString
  end.

Fixpoint rstrip (chars : list Ascii.ascii) (s : string) : string :=
  match s with
  | String c s' =>
      match rstrip chars s' with
      | EmptyString => if bool_decide (c ∈ chars) then EmptyString
                       else String c EmptyString
      | r => String c r
      end
  | EmptyString => EmptyString
  end.

Definition strip (chars : string) (s : string) : string :=
  let cs := String.list_ascii_of_string chars in rstrip cs (lstrip cs s).

(** [[0-9]]: an ASCII digit. *)
Definition is_digit (c : Ascii.ascii) : bool :=
  (48 <=? Ascii.nat_of_ascii c)%nat && (Ascii.nat_of_ascii c <=? 57)%nat.

(** The white space [int] skips around a number: tab, line feed,
    vertical tab, form feed, carriage return, the four separators and the
    blank. *)
Definition WHITESPACE : list Ascii.ascii :=
  Ascii.ascii_of_nat <$> [9; 10; 11; 12; 13; 28; 29; 30; 31; 32]%nat.

Definition PLUS : Ascii.ascii := Ascii.ascii_of_nat 43.
Definition MINUS : Ascii.ascii := Ascii.ascii_of_nat 45.
Definition UNDERSCORE : Ascii.ascii := Ascii.ascii_of_nat 95.

(** The value of a run of decimal digits, in which single underscores
    may stand between two digits; [None] when the text is not such a
    run.  [after_digit] tells whether the character before was a digit. *)
Fixpoint decimal_value (acc : N) (after_digit : bool) (s : string) : option N :=
  match s with
  | EmptyString => if after_digit then Some acc else None
  | String c s' =>
      if is_digit c then
        decimal_value (10 * acc + N.of_nat (Ascii.nat_of_ascii c - 48)) true s'
      else if bool_decide (c = UNDERSCORE) then
        if after_digit then decimal_value acc false s' else None
      else None
  end.

(** [int(s)] of Python 3 for a [str] in ASCII: white space around the
    number, an optional sign, decimal digits; [None] stands for
    [ValueError]. *)
Definition py_int (s : string) : option Z :=
  match rstrip WHITESPACE (lstrip WHITESPACE s) with
  | EmptyString => None
  | String c rest =>
      if bool_decide (c = PLUS) then Z.of_N <$> decimal_value 0 false rest
      else if bool_decide (c = MINUS)
      then (fun n => - Z.of_N n)%Z <$> decimal_value 0 false rest
      else Z.of_N <$> decimal_value 0 false (String c rest)
  end.

(** The decimal text of a number: [str(n)], and what a form submits for
    the id of a row. *)
Definition id_text (n : N) : string := NilEmpty.string_of_uint (N.to_uint n).

(** ** The relation record *)

(** Modelled from the spec: the [Relation] class of [model.py], the entity
    [{ realm, source, dest, type, id }] of the data model.  Its [values]
    dictionary holds the columns of the relation table, each a [str] or
    [None]; [rel['render_reverse'] = True] adds one more key to it, and
    [render] only tests the presence of that key. *)
Record Relation := mkRelation {
  rel_id : option N;
  realm : pystr;
  source : pystr;
  dest : pystr;
  type : pystr;
  render_reverse : bool
}.

#[global] Instance Relation_eq_dec : EqDecision Relation.
Proof. solve_decision. Defined.

(** [rel['render_reverse'] = True] *)
Definition set_render_reverse (rel : Relation) : Relation :=
  mkRelation (rel_id rel) (realm rel) (source rel) (dest rel) (type rel) true.

Module TktRelation.

Definition BLOCKING := "blocking".
Definition RELATION := "relation".
Definition PARENTCHILD := "parentchild".
Definition DUPLICATE := "duplicate".

(** The user friendly labels, as (forward, reverse) pairs. *)
Definition relations : list (string * (string * string)) :=
  [ (BLOCKING, ("is blocking", "is blocked by"));
    (RELATION, ("relates to", "is related to"));
    (PARENTCHILD, ("is parent of", "is child of"));
    (DUPLICATE, ("is duplicate of", "is duplicated by")) ].

(** [self.relations.get(reltype, (reltype, reltype))] *)
Definition relations_get (reltype : pystr) : pystr * pystr :=
  match reltype with
  | Some t =>
      match list_find (fun kv => kv.1 = t) relations with
      | Some (_, (_, (fwd, rev))) => (Some fwd, Some rev)
      | None => (reltype, reltype)
      end
  | None => (reltype, reltype)
  end.

(** An entry of the [data] dictionary handed to [render]: the request
    object of the host, or a plain value. *)
Inductive dataval :=
  | DReq
  | DVal (v : pystr).

#[global] Instance dataval_eq_dec : EqDecision dataval.
Proof. solve_decision. Defined.

Definition dtruthy (d : dataval) : bool :=
  match d with
  | DReq => true
  | DVal v => truthy v
  end.

(** What [render] returns: a string, or the markup
    [tag.span(format_to_oneliner(env, ctxt, wiki), class_="relation")]
    the host builds from the wiki text. *)
Inductive rendered :=
  | RStr (s : string)
  | RSpan (wiki : string).

(** [u"!#{a} ''{typelbl}'' #{b}".format(...)] *)
Definition wiki_line (a typelbl b : pystr) : string :=
  "!#" ++ py_str a ++ " ''" ++ py_str typelbl ++ "'' #" ++ py_str b.

(** [web_context(req)]: the rendering context of a request, which reads
    [req.href] and [req.perm] when [req] is truthy; a value that is not a
    request has no such attributes. *)
Definition web_context (req : dataval) : result unit :=
  if dtruthy req then
    match req with
    | DReq => Ok ()
    | DVal _ => Raise AttributeError
    end
  else Ok ().

Definition render (self : Relation) (data : gmap string dataval)
  : result rendered :=
  let req := default (DVal None) (data !! "req") in
  let render_format := default (DVal (Some "wiki")) (data !! "format") in
  let reverse := render_reverse self in
  if negb (dtruthy req) then Ok (RStr EmptyString)
  else
    ctxt ← web_context req;
    let reltype := type self in
    let typelbl :=
      if reverse then (relations_get reltype).2 else (relations_get reltype).1 in
    let wiki :=
      if negb reverse then wiki_line (source self) typelbl (dest self)
      else wiki_line (dest self) typelbl (source self) in
    if bool_decide (render_format = DVal (Some "wiki")) then Ok (RStr wiki)
    else Ok (RSpan wiki).

End TktRelation.


(** ** The host: tickets and the database *)

(** A ticket object of the host.  [ticket[name]] is
    [ticket.values.get(name)]: [None] for a field that has no value. *)
Record TicketObj := mkTicket {
  ticket_id : pystr;
  tkt_values : gmap string string
}.

Definition getitem (ticket : TicketObj) (name : string) : pystr :=
  tkt_values ticket !! name.

(** A row of [ticket_change] and a row of [ticket_custom]. *)
Record ChangeRow := mkChangeRow {
  chg_ticket : string;
  chg_field : string;
  chg_oldvalue : string;
  chg_newvalue : string
}.

Record CustomRow := mkCustomRow {
  cst_ticket : string;
  cst_name : string;
  cst_value : string
}.

(** The environment: the tickets of the host, keyed by the decimal text
    of their integer id, and the three tables the component reads and
    writes. *)
Record Env := mkEnv {
  tickets : gmap string (gmap string string);
  relation : list Relation;
  ticket_change : list ChangeRow;
  ticket_custom : list CustomRow
}.

Definition set_relation (env : Env) (rows : list Relation) : Env :=
  mkEnv (tickets env) rows (ticket_change env) (ticket_custom env).

(** [Ticket.id_is_valid(num)]: [0 < int(num) <= 1 << 31], and false when
    [int] fails; the integer, when the id is valid. *)
Definition valid_id (num : string) : option N :=
  match py_int num with
  | Some z => if ((0 <? z) && (z <=? 2 ^ 31))%Z then Some (Z.to_N z) else None
  | None => None
  end.

(** [Ticket(env, tkt_id)]: the host reads the id with [int], loads the
    ticket with that number and gives it the integer as id; it raises
    [ResourceNotFound] when the id is not a valid number or there is no
    such ticket.  Without an id it builds a new ticket object that is not
    in the database and has no status yet.  The id of a ticket object is
    kept as the decimal text of the integer. *)
Definition Ticket (env : Env) (id : pystr) : result TicketObj :=
  match id with
  | None => Ok (mkTicket None ∅)
  | Some text =>
      match valid_id text with
      | Some n =>
          match tickets env !! id_text n with
          | Some vals => Ok (mkTicket (Some (id_text n)) vals)
          | None => Raise ResourceNotFound
          end
      | None => Raise ResourceNotFound
      end
  end.

(** [RELDATA_FIELD] *)
Definition RELDATA_FIELD := "relationdata".

(** [DELETE FROM ticket_change WHERE ticket=%s AND field=%s] *)
Definition delete_ticket_change (env : Env) (id : pystr) (field : string) : Env :=
  mkEnv (tickets env) (relation env)
    (filter (fun r => ¬ (Some (chg_ticket r) = id ∧ chg_field r = field))
       (ticket_change env))
    (ticket_custom env).

(** [DELETE FROM ticket_custom WHERE ticket=%s AND name=%s] *)
Definition delete_ticket_custom (env : Env) (id : pystr) (name : string) : Env :=
  mkEnv (tickets env) (relation env) (ticket_change env)
    (filter (fun r => ¬ (Some (cst_ticket r) = id ∧ cst_name r = name))
       (ticket_custom env)).

(** ** The relation model and the relation system

    What the component calls from [model.py] and [api.py], following the
    specification of the relation store. *)

(** Modelled from the spec: the constructor
    [Relation(env, realm, src, dest, type)] of [model.py], a relation that
    is not stored yet. *)
Definition Relation_new (realm src dest type : pystr) : Relation :=
  mkRelation None realm src dest type false.

(** A column matches a keyword argument of [select] when the argument is
    [None] (no constraint) or equal to the column. *)
Definition column_matches (want col : pystr) : bool :=
  match want with
  | None => true
  | Some _ => bool_decide (col = want)
  end.

(** Modelled from the spec: [Relation.select] of [model.py], the read of
    the CRUD over the [(source, dest, type, realm)] relation table; it
    returns the stored rows that match the given columns, in table order. *)
Definition select (env : Env) (by_realm src dst reltype : pystr) : list Relation :=
  filter (fun r => column_matches by_realm (realm r)
                   && column_matches src (source r)
                   && column_matches dst (dest r)
                   && column_matches reltype (type r))
    (relation env).

(** The four predefined relation types. *)
Definition recognized (t : pystr) : bool :=
  match t with
  | Some s => bool_decide (s ∈ TktRelation.relations.*1)
  | None => false
  end.

(** A ticket id that resolves to an existing ticket: the host can load
    the ticket it names. *)
Definition resolves (env : Env) (id : pystr) : bool :=
  match id with
  | Some _ =>
      match Ticket env id with
      | Ok _ => true
      | Raise _ => false
      end
  | None => false
  end.

(** The [(realm, source, dest, type)] combination of two relations agrees. *)
Definition same_relation (a b : Relation) : bool :=
  bool_decide (realm a = realm b ∧ source a = source b
               ∧ dest a = dest b ∧ type a = type b).

(** The automatic id of the next row. *)
Definition next_id (rows : list Relation) : N :=
  N.succ (foldr (fun r m => N.max (default 0%N (rel_id r)) m) 0%N rows).

(** The row [insert] writes for a relation. *)
Definition stored (id : N) (rel : Relation) : Relation :=
  mkRelation (Some id) (realm rel) (source rel) (dest rel) (type rel) false.

(** Modelled from the spec: [RelationSystem.add_relation] of [api.py].
    A candidate relation is rejected when its type is unrecognized, when
    source or dest do not resolve to existing tickets, or when an identical
    relation already exists (duplicate detection raises on conflict);
    otherwise it is stored under a new id. *)
Definition add_relation (env : Env) (rel : Relation) : result Env :=
  if negb (recognized (type rel)) then Raise ValidationError
  else if negb (resolves env (source rel) && resolves env (dest rel))
  then Raise ValidationError
  else if existsb (same_relation rel) (relation env) then Raise ResourceExistsError
  else Ok (set_relation env
             (relation env ++ [stored (next_id (relation env)) rel])).

(** Modelled from the spec: [TktRelation(env, relation_id=relid)] of
    [model.py], the relation loaded by id; an id without a row gives a
    relation without values, which makes removing it a second time safe. *)
Definition Relation_by_id (env : Env) (relid : string) : Relation :=
  match list_find (fun r => id_text <$> rel_id r = Some relid) (relation env) with
  | Some (_, r) => r
  | None => mkRelation None None None None None false
  end.

(** Modelled from the spec: [RelationSystem.delete_relation] of [api.py];
    removing a relation by id removes exactly that row. *)
Definition delete_relation (env : Env) (rel : Relation) : Env :=
  match rel_id rel with
  | Some i => set_relation env (filter (fun r => rel_id r ≠ Some i) (relation env))
  | None => env
  end.

(** ** Generators

    [validate_ticket] is a generator: it yields problems one by one and
    either finishes or raises, and what it yielded before it raised has
    been yielded all the same. *)
Record gen (A : Type) := mkGen {
  yielded : list A;
  raised : option exn
}.
Arguments mkGen {A} yielded raised.
Arguments yielded {A} g.
Arguments raised {A} g.

Definition gen_skip {A} : gen A := mkGen [] None.
Definition gen_yield {A} (a : A) : gen A := mkGen [a] None.
Definition gen_raise {A} (e : exn) : gen A := mkGen [] (Some e).

(** Run [g1], then [g2] unless [g1] raised. *)
Definition gen_seq {A} (g1 g2 : gen A) : gen A :=
  match raised g1 with
  | Some _ => g1
  | None => mkGen (yielded g1 ++ yielded g2) (raised g2)
  end.

(** [for x in xs: body(x)] *)
Fixpoint gen_for {A B} (xs : list B) (body : B → gen A) : gen A :=
  match xs with
  | [] => gen_skip
  | x :: xs' => gen_seq (body x) (gen_for xs' body)
  end.

(** ** The request of the host *)

(** What [add_notice] is given: the two notices of the handler, each with
    the source and the destination of the relation it names. *)
Inductive notice :=
  | RelationAdded (src dst : pystr)
  | RelationDeleted (src dst : pystr).

(** The parts of a request the component uses: the path, the method, the
    scalar form arguments, the values of the repeated [sel] argument
    ([req.args.getlist('sel')]), the permissions of the user on a resource
    ([action in req.perm(realm, id)]) and overall ([req.perm.require]),
    and the warnings and notices added so far. *)
Record Request := mkRequest {
  path_info : string;
  method : string;
  args : gmap string string;
  sel : list string;
  perm_on : string → pystr → pystr → bool;
  perm_require : string → bool;
  warnings : list exn;
  notices : list notice
}.

Definition set_args (req : Request) (a : gmap string string) : Request :=
  mkRequest (path_info req) (method req) a (sel req) (perm_on req)
    (perm_require req) (warnings req) (notices req).

(** [add_warning(req, e)] *)
Definition add_warning (req : Request) (e : exn) : Request :=
  mkRequest (path_info req) (method req) (args req) (sel req) (perm_on req)
    (perm_require req) (warnings req ++ [e]) (notices req).

(** [add_notice(req, msg)] *)
Definition add_notice (req : Request) (n : notice) : Request :=
  mkRequest (path_info req) (method req) (args req) (sel req) (perm_on req)
    (perm_require req) (warnings req) (notices req ++ [n]).

(** Where [req.redirect] sends the client:
    [get_resource_url(env, tkt.resource, req.href)] or [req.href(path)]. *)
Inductive target :=
  | ResourceUrl (id : pystr)
  | Href (path : string).

(** The data of the relation management templates; the ticket URL and
    the options of the type selector, which the handler builds from
    constants, are left to the host. *)
Record TemplateData := mkTemplateData {
  data_ticket : TicketObj;
  data_fragment : pystr;
  data_is_start : list Relation;
  data_is_end : list Relation
}.

(** How [process_request] ends when it does not raise: with the redirect
    that closes a POST, or with a template to render. *)
Inductive response :=
  | Redirect (to : target)
  | Template (name : string) (data : TemplateData).

(** ** Sorting by type *)

(** Order of two [type] keys: strings by code point, [None] first. *)
Definition key_le (a b : pystr) : bool :=
  match a, b with
  | None, _ => true
  | Some _, None => false
  | Some x, Some y => String.leb x y
  end.

Fixpoint insert_by_type (x : Relation) (l : list Relation) : list Relation :=
  match l with
  | [] => [x]
  | y :: l' =>
      if key_le (type x) (type y) then x :: l else y :: insert_by_type x l'
  end.

(** [sorted(rels, key=lambda k: k['type'])]; the sort is stable. *)
Definition sorted_by_type (rels : list Relation) : list Relation :=
  foldr insert_by_type [] rels.

(** ** The path of the relation management page *)

(** A literal prefix of the pattern: what follows it, when it matches. *)
Fixpoint match_literal (lit s : string) : option string :=
  match lit, s with
  | EmptyString, _ => Some s
  | String a lit', String b s' =>
      if bool_decide (a = b) then match_literal lit' s' else None
  | String _ _, EmptyString => None
  end.

(** [[0-9]*], greedy: the digits at the front and what follows them. *)
Fixpoint match_digits (s : string) : string * string :=
  match s with
  | String c s' =>
      if is_digit c then
        let '(ds, rest) := match_digits s' in (String c ds, rest)
      else (EmptyString, s)
  | EmptyString => (EmptyString, EmptyString)
  end.

(** The characters [/], [!] and line feed. *)
Definition SLASH : Ascii.ascii := Ascii.ascii_of_nat 47.
Definition BANG : Ascii.ascii := Ascii.ascii_of_nat 33.
Definition LF : Ascii.ascii := Ascii.ascii_of_nat 10.

(** [/*$]: slashes up to the end of the string; [$] also matches just
    before a line feed that ends the string. *)
Fixpoint match_slashes_end (s : string) : bool :=
  match s with
  | EmptyString => true
  | String c s' =>
      if bool_decide (c = SLASH) then match_slashes_end s'
      else bool_decide (c = LF) && bool_decide (s' = EmptyString)
  end.

(** [re.match(r'/ticket/([0-9]+)/relations/*$', path)]: group 1 of the
    match, or [None].  The digits are followed by a slash, so the greedy
    run of digits is the only one that can match. *)
Definition re_match (path : string) : option string :=
  s1 ← match_literal "/ticket/" path;
  let '(ds, s2) := match_digits s1 in
  if bool_decide (ds = EmptyString) then None
  else
    s3 ← match_literal "/relations" s2;
    if match_slashes_end s3 then Some ds else None.

(** ** The component *)

Module TicketRelations.

(** [realm = TicketSystem.realm] *)
Definition realm : pystr := Some "ticket".

(** A validation problem: a [(field, message)] tuple. *)
Definition problem : Type := pystr * string.

Definition block_msg (blocktkt : pystr) : string :=
  "This ticket is blocked. It can't be resolved while ticket #"
  ++ py_str blocktkt ++ " is still open.".

Definition child_msg (childtkt : pystr) : string :=
  "This ticket is a parent. It can't be resolved while ticket #"
  ++ py_str childtkt ++ " is still open.".

Definition missing_msg (id : string) : string :=
  "Ticket " ++ id ++ " does not exist.".

(** The body of the two loops of [validate_ticket]: load the ticket at
    the other end of the relation and yield a problem when it is open. *)
Definition check_open (env : Env) (other : pystr) (msg : pystr → string)
  : gen problem :=
  match Ticket env other with
  | Raise e => gen_raise e
  | Ok tkt =>
      if bool_decide (getitem tkt "status" ≠ Some "closed")
      then gen_yield (None, msg other)
      else gen_skip
  end.

Definition validate_ticket (env : Env) (ticket : TicketObj) : gen problem :=
  gen_seq
    (if bool_decide (getitem ticket "status" = Some "closed") then
       gen_seq
         (gen_for (select env realm None (ticket_id ticket) (Some "blocking"))
            (fun rel => check_open env (source rel) block_msg))
         (gen_for (select env realm (ticket_id ticket) None (Some "parentchild"))
            (fun rel => check_open env (dest rel) child_msg))
     else gen_skip)
    (if bool_decide (getitem ticket "resolution" = Some "duplicate") then
       match getitem ticket RELDATA_FIELD with
       | None => gen_raise AttributeError
       | Some data =>
           let tkt_id := strip "# " data in
           match Ticket env (Some tkt_id) with
           | Raise ResourceNotFound => gen_yield (None, missing_msg tkt_id)
           | Raise e => gen_raise e
           | Ok _ => gen_skip
           end
       end
     else gen_skip).

Definition validate_comment (env : Env) (comment : string) : list string := [].

(** [ticket_changed]: the part that may add a duplicate relation, and
    raises when [ticket['relationdata']] is [None] or the relation system
    rejects the relation. *)
Definition add_duplicate (env : Env) (ticket : TicketObj)
    (old_values : gmap string pystr) : result Env :=
  if bool_decide (is_Some (old_values !! "resolution")) then
    match getitem ticket RELDATA_FIELD with
    | None => Raise AttributeError
    | Some data =>
        let tkt_id := strip "# " data in
        if bool_decide (getitem ticket "resolution" = Some "duplicate") then
          add_relation env
            (Relation_new (Some "ticket") (ticket_id ticket)
               (Some tkt_id) (Some TktRelation.DUPLICATE))
        else Ok env
    end
  else Ok env.

(** [ticket_changed]: an exception leaves the environment as it was when
    it was raised. *)
Definition ticket_changed (env : Env) (ticket : TicketObj)
    (old_values : gmap string pystr) : Env * result unit :=
  match add_duplicate env ticket old_values with
  | Raise e => (env, Raise e)
  | Ok env1 =>
      let env2 := delete_ticket_change env1 (ticket_id ticket) RELDATA_FIELD in
      let env3 := delete_ticket_custom env2 (ticket_id ticket) RELDATA_FIELD in
      (env3, Ok ())
  end.

Definition ticket_created (env : Env) (ticket : TicketObj) : Env :=
  delete_ticket_custom env (ticket_id ticket) RELDATA_FIELD.

Definition ticket_deleted (env : Env) (ticket : TicketObj) : Env := env.

(** [create_relations_wiki]: the rendered links of the relations that
    start and that end at the ticket, which the table template joins
    with [[[BR]]], and whether the ticket has any relation. *)
Definition create_relations_wiki (env : Env) (ticket : TicketObj)
  : result (list TktRelation.rendered * list TktRelation.rendered * bool) :=
  let data : gmap string TktRelation.dataval := {["req" := TktRelation.DReq]} in
  let is_start :=
    sorted_by_type (select env (Some "ticket") (ticket_id ticket) None None) in
  links ← mapM (fun rel => TktRelation.render rel data) is_start;
  let is_end :=
    set_render_reverse <$>
      sorted_by_type (select env (Some "ticket") None (ticket_id ticket) None) in
  rev_links ← mapM (fun rel => TktRelation.render rel data) is_end;
  mret (links, rev_links,
        negb (bool_decide (is_end = [])) || negb (bool_decide (is_start = []))).

Definition match_request (req : Request) : bool * Request :=
  match re_match (path_info req) with
  | None => (false, req)
  | Some digits => (true, set_args req (<["id" := digits]> (args req)))
  end.

(** The relation the add-relation form asks for: [rel_type[0]] raises on
    [None] and on the empty string; a leading [!] reverses the relation. *)
Definition requested_relation (src dst rel_type : pystr) : result Relation :=
  match rel_type with
  | None => Raise TypeError
  | Some EmptyString => Raise IndexError
  | Some (String c rest) =>
      if bool_decide (c = BANG)
      then Ok (Relation_new (Some "ticket") dst src (Some rest))
      else Ok (Relation_new (Some "ticket") src dst rel_type)
  end.

(** [except (ValueError, ValidationError, ResourceExistsError)] *)
Definition caught (e : exn) : bool :=
  bool_decide (e ∈ [ValueError; ValidationError; ResourceExistsError]).

(** The add-relation branch: the [try] statement with its handler and
    its [else] clause. *)
Definition add_branch (env : Env) (req : Request) : Env * Request * result unit :=
  let src := args req !! "current-tkt" in
  let dst := args req !! "other-tkt" in
  let rel_type := args req !! "relation-type" in
  match rel ← requested_relation src dst rel_type;
        env' ← add_relation env rel; mret (rel, env') with
  | Raise e =>
      if caught e then (env, add_warning req e, Ok ())
      else (env, req, Raise e)
  | Ok (rel, env') =>
      (env', add_notice req (RelationAdded (source rel) (dest rel)), Ok ())
  end.

(** The body of the loop of the remove-relation branch: load the
    relation with the selected id, delete it and add a notice. *)
Definition remove_one (st : Env * Request) (relid : string) : Env * Request :=
  let '(env, req) := st in
  let rel := Relation_by_id env relid in
  let env' := delete_relation env rel in
  (env', add_notice req (RelationDeleted (source rel) (dest rel))).

(** The remove-relation branch: [for relid in sel]. *)
Definition remove_branch (env : Env) (req : Request) : Env * Request :=
  foldl remove_one (env, req) (sel req).

Definition process_request (env : Env) (req : Request)
  : Env * Request * result response :=
  let tkt_id := args req !! "id" in
  if negb (perm_on req "TICKET_VIEW" realm tkt_id)
  then (env, req, Raise PermissionError)
  else
    match Ticket env tkt_id with
    | Raise e => (env, req, Raise e)
    | Ok tkt =>
        let is_fragment := args req !! "format" in
        if bool_decide (method req = "POST") then
          if negb (perm_require req "TICKET_MODIFY")
          then (env, req, Raise PermissionError)
          else
            let '(env', req', r) :=
              if truthy (args req !! "add-relation") then add_branch env req
              else if truthy (args req !! "remove-relation")
              then (remove_branch env req, Ok ())
              else (env, req, Ok ()) in
            match r with
            | Raise e => (env', req', Raise e)
            | Ok _ =>
                (env', req',
                 Ok (Redirect (if truthy is_fragment
                               then ResourceUrl (ticket_id tkt)
                               else Href (path_info req))))
            end
        else
          let is_end :=
            set_render_reverse <$>
              sorted_by_type
                (select env (Some "ticket") None (ticket_id tkt) None) in
          let is_start :=
            sorted_by_type
              (select env (Some "ticket") (ticket_id tkt) None None) in
          let data := mkTemplateData tkt is_fragment is_start is_end in
          (env, req,
           Ok (Template (if truthy is_fragment
                         then "ticket_relations_fragment.html"
                         else "manage_ticket_relations.html") data))
    end.

End TicketRelations.

(** ** Vocabulary of the properties *)



(** The blocking relations that target a ticket, and the parentchild
    relations that start at it, as [validate_ticket] selects them. *)
Definition blockers (env : Env) (ticket : TicketObj) : list Relation :=
  select env TicketRelations.realm None (ticket_id ticket) (Some "blocking").

Definition children (env : Env) (ticket : TicketObj) : list Relation :=
  select env TicketRelations.realm (ticket_id ticket) None (Some "parentchild").

(** Every character of a string satisfies a test. *)
Fixpoint all_chars (P : Ascii.ascii → bool) (s : string) : bool :=
  match s with
  | EmptyString => true
  | String c s' => P c && all_chars P s'
  end.

Definition is_slash (c : Ascii.ascii) : bool := bool_decide (c = SLASH).

(** The paths of the relation management page in the words of the
    specification: [/ticket/<digits>/relations], with optional trailing
    slashes and nothing after. *)
Definition relations_path (path digits : string) : Prop :=
  digits ≠ EmptyString ∧ all_chars is_digit digits = true
  ∧ ∃ slashes, all_chars is_slash slashes = true
               ∧ path = "/ticket/" ++ digits ++ "/relations" ++ slashes.

(** The same paths, optionally ended by one line feed. *)
Definition relations_line (path digits : string) : Prop :=
  digits ≠ EmptyString ∧ all_chars is_digit digits = true
  ∧ ∃ slashes tail,
      all_chars is_slash slashes = true
      ∧ (tail = EmptyString ∨ tail = String LF EmptyString)
      ∧ path = "/ticket/" ++ digits ++ "/relations" ++ slashes ++ tail.

(** The request passes the checks that precede the actions of a POST:
    the user may view the ticket, the ticket loads, the method is POST and
    the user may modify tickets. *)
Definition post_admitted (env : Env) (req : Request) (tkt : TicketObj) : Prop :=
  perm_on req "TICKET_VIEW" TicketRelations.realm (args req !! "id") = true
  ∧ Ticket env (args req !! "id") = Ok tkt
  ∧ method req = "POST"
  ∧ perm_require req "TICKET_MODIFY" = true.

(** The redirect that closes a POST. *)
Definition redirect_of (req : Request) (tkt : TicketObj) : response :=
  Redirect (if truthy (args req !! "format")
            then ResourceUrl (ticket_id tkt)
            else Href (path_info req)).

(** The relation the add-relation form of a request asks for. *)
Definition requested (req : Request) : result Relation :=
  TicketRelations.requested_relation
    (args req !! "current-tkt") (args req !! "other-tkt")
    (args req !! "relation-type").

(** The id of a row is among the selected ids of the form. *)
Definition is_selected (ids : list string) (r : Relation) : bool :=
  match rel_id r with
  | Some i => bool_decide (id_text i ∈ ids)
  | None => false
  end.

(** The entry points of the component, as the host calls them. *)
Inductive operation :=
  | PrepareTicket (ticket : TicketObj)
  | ValidateTicket (ticket : TicketObj)
  | ValidateComment (comment : string)
  | TicketChanged (ticket : TicketObj) (old_values : gmap string pystr)
  | TicketCreated (ticket : TicketObj)
  | TicketDeleted (ticket : TicketObj)
  | PostProcessRequest (ticket : TicketObj)
  | MatchRequest (req : Request)
  | ProcessRequest (req : Request).

(** The environment an entry point leaves behind, whether it returns or
    raises.  The validators, the request filter and the request matcher
    only read the tables. *)
Definition run (op : operation) (env : Env) : Env :=
  match op with
  | PrepareTicket _ => env
  | ValidateTicket _ => env
  | ValidateComment _ => env
  | TicketChanged ticket old_values =>
      (TicketRelations.ticket_changed env ticket old_values).1
  | TicketCreated ticket => TicketRelations.ticket_created env ticket
  | TicketDeleted ticket => TicketRelations.ticket_deleted env ticket
  | PostProcessRequest _ => env
  | MatchRequest _ => env
  | ProcessRequest req => (TicketRelations.process_request env req).1.1
  end.

(** The explicit user actions of the relation management form. *)
Definition is_add_form (op : operation) : Prop :=
  ∃ req, op = ProcessRequest req ∧ method req = "POST"
         ∧ truthy (args req !! "add-relation") = true.

Definition is_remove_form (op : operation) : Prop :=
  ∃ req, op = ProcessRequest req ∧ method req = "POST"
         ∧ truthy (args req !! "add-relation") = false
         ∧ truthy (args req !! "remove-relation") = true.

(** The change of a ticket that resolves it as a duplicate. *)
Definition is_duplicate_resolution (op : operation) : Prop :=
  ∃ ticket old_values,
    op = TicketChanged ticket old_values
    ∧ is_Some (old_values !! "resolution")
    ∧ getitem ticket "resolution" = Some "duplicate".

(** No row of a table carries the transient relation data of a ticket. *)
Definition no_relationdata (env : Env) (id : pystr) : Prop :=
  (∀ r, r ∈ ticket_change env →
        ¬ (Some (chg_ticket r) = id ∧ chg_field r = RELDATA_FIELD))
  ∧ (∀ r, r ∈ ticket_custom env →
          ¬ (Some (cst_ticket r) = id ∧ cst_name r = RELDATA_FIELD)).

(** ** States and requests the properties are tried on *)

(** A state with a dangling relation: ticket 1 is being
    closed, ticket 2 blocks it and ticket 3 is its child, both open, and a
    blocking relation is left from ticket 9, which is no more. *)
Definition dangling_env : Env :=
  mkEnv {[ "1" := {["status" := "new"]};
           "2" := {["status" := "new"]};
           "3" := {["status" := "assigned"]} ]}
    [ mkRelation (Some 1%N) (Some "ticket") (Some "9") (Some "1")
        (Some "blocking") false;
      mkRelation (Some 2%N) (Some "ticket") (Some "2") (Some "1")
        (Some "blocking") false;
      mkRelation (Some 3%N) (Some "ticket") (Some "1") (Some "3")
        (Some "parentchild") false ]
    [] [].

Definition closing_1 : TicketObj :=
  mkTicket (Some "1") {["status" := "closed"; "resolution" := "fixed"]}.

(** The same state without the dangling relation. *)
Definition blocked_env : Env :=
  set_relation dangling_env (drop 1 (relation dangling_env)).

(** A user who may do everything asks for a path. *)
Definition request_for (path : string) : Request :=
  mkRequest path "GET" ∅ [] (fun _ _ _ => true) (fun _ => true) [] [].

(** Tickets 1 and 2 exist, and 1 is already stored as a duplicate of 2. *)
Definition duplicate_env : Env :=
  mkEnv {[ "1" := {["status" := "new"]}; "2" := {["status" := "new"]} ]}
    [ mkRelation (Some 1%N) (Some "ticket") (Some "1") (Some "2")
        (Some "duplicate") false ]
    [ mkChangeRow "1" "relationdata" EmptyString "#2" ]
    [ mkCustomRow "1" "relationdata" "#2" ].

(** The same tickets without any relation. *)
Definition fresh_env : Env :=
  mkEnv (tickets duplicate_env) [] (ticket_change duplicate_env)
    (ticket_custom duplicate_env).

(** A POST of the relation management form of ticket 1, by a user who may
    do everything. *)
Definition post_form (fields : list (string * string)) (ids : list string)
  : Request :=
  mkRequest "/ticket/1/relations" "POST" (<["id" := "1"]> (list_to_map fields))
    ids (fun _ _ _ => true) (fun _ => true) [] [].

(** A request for the relations of a ticket that does not exist, by a
    user who may not view tickets. *)
Definition stranger_request : Request :=
  mkRequest "/ticket/7/relations" "GET" {["id" := "7"]} []
    (fun _ _ _ => false) (fun _ => false) [] [].

(** Ticket 1 as it is handed to the listeners after it has been resolved
    as a duplicate of ticket 2, and the old values of that change. *)
Definition resolved_1 : TicketObj :=
  mkTicket (Some "1")
    {["status" := "closed"; "resolution" := "duplicate"; "relationdata" := "#2"]}.

Definition resolution_changed : gmap string pystr :=
  {["status" := Some "new"; "resolution" := Some EmptyString]}.

(** A POST of the same form by a user who may view but not modify. *)
Definition viewer_post : Request :=
  mkRequest "/ticket/1/relations" "POST" {["id" := "1"]} []
    (fun _ _ _ => true) (fun _ => false) [] [].

(** A user who may view asks for the relations of a ticket that does not
    exist. *)
Definition missing_request : Request :=
  set_args (request_for "/ticket/7/relations") {["id" := "7"]}.



(** ** The options of the type selector *)

(** [process_request], the loop that prepares the select control: for each
    relation type the forward option and, under the key with a leading
    [!], the reverse option.  The arrows are [TktRelation.arrow_right] and
    [TktRelation.arrow_left], constants of the model, taken as
    parameters. *)
Definition rel_options (aright aleft : string) : list (string * string) :=
  flat_map (fun '(key, (fwd, rev)) =>
              [ (key, fwd ++ " " ++ aright);
                (String BANG key, aleft ++ " " ++ rev) ])
    TktRelation.relations.

(** A request with other selected ids. *)
Definition with_sel (req : Request) (ids : list string) : Request :=
  mkRequest (path_info req) (method req) (args req) ids (perm_on req)
    (perm_require req) (warnings req) (notices req).

(** Two relations are in the order of their [type] keys. *)
Definition type_le (a b : Relation) : Prop := key_le (type a) (type b) = true.

(** A character is one of the given characters. *)
Definition in_chars (chars : list Ascii.ascii) (c : Ascii.ascii) : bool :=
  bool_decide (c ∈ chars).

(** A string starts, or ends, with one of the given characters. *)
Definition starts_with_any (chars : list Ascii.ascii) (s : string) : Prop :=
  ∃ c s', s = String c s' ∧ c ∈ chars.

Definition ends_with_any (chars : list Ascii.ascii) (s : string) : Prop :=
  ∃ c s', s = s' ++ String c EmptyString ∧ c ∈ chars.

(** A ticket that is open, neither closed nor resolved, with some
    relation data. *)
Definition editing_1 : TicketObj :=
  mkTicket (Some "1") {["status" := "assigned"; "relationdata" := " #2 "]}.

(** Ticket 1 while it is resolved as a duplicate of ticket 5, which does
    not exist. *)
Definition resolving_1 : TicketObj :=
  mkTicket (Some "1")
    {["status" := "new"; "resolution" := "duplicate"; "relationdata" := "#5"]}.

(** The same, with the number of ticket 2 written with a leading zero. *)
Definition resolving_02 : TicketObj :=
  mkTicket (Some "1")
    {["status" := "new"; "resolution" := "duplicate"; "relationdata" := "#02"]}.

(** Ticket 1 is blocked by ticket 2 and parent of ticket 3, and both are
    closed. *)
Definition settled_env : Env :=
  mkEnv {[ "1" := {["status" := "new"]};
           "2" := {["status" := "closed"]};
           "3" := {["status" := "closed"]} ]}
    (relation blocked_env) [] [].

(** The state after ticket 1 has been resolved as a duplicate of ticket 2
    for the first time. *)
Definition resolved_env : Env :=
  mkEnv (tickets fresh_env)
    [ mkRelation (Some 1%N) (Some "ticket") (Some "1") (Some "2")
        (Some "duplicate") false ] [] [].

(** The add form of a request, filled in from the other ticket: current
    and other ticket exchanged, and another relation type. *)
Definition mirrored_form (req : Request) (current other rel_type : string)
  : Request :=
  set_args req
    (<["current-tkt" := current]>
       (<["other-tkt" := other]> (<["relation-type" := rel_type]> (args req)))).

(** * Properties *)

Open Scope list_scope.

(** ** Sanity checks of the embedding *)

Example strip_hash : strip "# " " #12 " = "12".
Proof. reflexivity. Qed.

Example render_forward :
  TktRelation.render
    (mkRelation (Some 1%N) (Some "ticket") (Some "3") (Some "4")
       (Some "blocking") false)
    {["req" := TktRelation.DReq]}
  = Ok (TktRelation.RStr "!#3 ''is blocking'' #4").
Proof. vm_compute. reflexivity. Qed.

Example render_backward :
  TktRelation.render
    (mkRelation (Some 1%N) (Some "ticket") (Some "3") (Some "4")
       (Some "blocking") true)
    {["req" := TktRelation.DReq]}
  = Ok (TktRelation.RStr "!#4 ''is blocked by'' #3").
Proof. vm_compute. reflexivity. Qed.

Example re_match_plain : re_match "/ticket/42/relations//" = Some "42".
Proof. vm_compute. reflexivity. Qed.

Example re_match_no_digits : re_match "/ticket//relations" = None.
Proof. vm_compute. reflexivity. Qed.

Example re_match_trailing : re_match "/ticket/42/relations/x" = None.
Proof. vm_compute. reflexivity. Qed.

(** ** Rendering a relation *)

Section Render.
Import TktRelation.

Lemma relations_get_unrecognized (t : pystr) :
  recognized t = false → relations_get t = (t, t).
Proof.
  destruct t as [s|]; [|done]. unfold recognized, relations_get. intros Hs.
  apply bool_decide_eq_false in Hs.
  destruct (list_find _ relations) as [[i [k [fwd rev]]]|] eqn:Hfind; [|done].
  apply list_find_Some in Hfind as (Hi & Hk & _). simpl in Hk. subst k.
  exfalso. apply Hs. apply list_elem_of_fmap.
  exists (s, (fwd, rev)). split; [done|]. by eapply list_elem_of_lookup_2.
Qed.

Lemma relations_get_recognized (t fwd rev : string) :
  (t, (fwd, rev)) ∈ relations → relations_get (Some t) = (Some fwd, Some rev).
Proof.
  unfold relations. rewrite !elem_of_cons, elem_of_nil.
  intros [H|[H|[H|[H|[]]]]]; inversion H; subst; reflexivity.
Qed.

(** With the request object in the data, [render] does not raise at
    [web_context]. *)
Lemma render_request (self : Relation) (data : gmap string dataval) :
  data !! "req" = Some DReq →
  render self data
  = let typelbl :=
      if render_reverse self then (relations_get (type self)).2
      else (relations_get (type self)).1 in
    let wiki :=
      if negb (render_reverse self)
      then wiki_line (source self) typelbl (dest self)
      else wiki_line (dest self) typelbl (source self) in
    if bool_decide (default (DVal (Some "wiki")) (data !! "format")
                    = DVal (Some "wiki"))
    then Ok (RStr wiki) else Ok (RSpan wiki).
Proof. intros Hreq. unfold render. by rewrite Hreq. Qed.

(** A truthy [req] entry that is not a request makes [render] raise at
    [web_context(req)]. *)
Lemma render_not_a_request (self : Relation) (data : gmap string dataval)
    (c : Ascii.ascii) (s : string) :
  data !! "req" = Some (DVal (Some (String c s))) →
  render self data = Raise AttributeError.
Proof. intros Hreq. unfold render. by rewrite Hreq. Qed.

(** C10, amended: without a truthy [req] entry [render] returns the empty
    string; with the current request in [req], and with [format] absent or
    ['wiki'], it returns the wiki line of the relation,
    [!#<source> ''<label>'' #<dest>], with source and destination swapped
    exactly when [render_reverse] is among the values, labelled with the
    forward or reverse label of the type, or with the type itself when
    the type is not one of the known ones. *)
Theorem render_wiki (self : Relation) (data : gmap string dataval) :
  (dtruthy (default (DVal None) (data !! "req")) = false →
   render self data = Ok (RStr EmptyString))
  ∧ (data !! "req" = Some DReq →
     data !! "format" = None ∨ data !! "format" = Some (DVal (Some "wiki")) →
     ∃ typelbl : pystr,
       render self data
       = Ok (RStr (if render_reverse self
                   then "!#" +:+ default "None" (dest self) +:+ " ''"
                        +:+ default "None" typelbl +:+ "'' #"
                        +:+ default "None" (source self)
                   else "!#" +:+ default "None" (source self) +:+ " ''"
                        +:+ default "None" typelbl +:+ "'' #"
                        +:+ default "None" (dest self)))
       ∧ (recognized (type self) = false → typelbl = type self)
       ∧ (∀ t fwd rev, type self = Some t → (t, (fwd, rev)) ∈ relations →
          typelbl = Some (if render_reverse self then rev else fwd))).
Proof.
  split.
  - intros Hreq. unfold render. by rewrite Hreq.
  - intros Hreq Hfmt. rewrite (render_request self data Hreq).
    assert (default (DVal (Some "wiki")) (data !! "format") = DVal (Some "wiki"))
      as -> by (by destruct Hfmt as [-> | ->]).
    rewrite bool_decide_eq_true_2 by done.
    exists (if render_reverse self then (relations_get (type self)).2
            else (relations_get (type self)).1).
    split; [by destruct (render_reverse self)|]. split.
    + intros Hun. rewrite (relations_get_unrecognized _ Hun).
      by destruct (render_reverse self).
    + intros t fwd rev Ht Hin. rewrite Ht.
      rewrite (relations_get_recognized _ _ _ Hin).
      by destruct (render_reverse self).
Qed.

Lemma render_wiki_witness :
  render (mkRelation None None (Some "1") (Some "2") (Some "blocking") false) ∅
  = Ok (RStr EmptyString)
  ∧ render (mkRelation None None (Some "1") (Some "2") (Some "follows") true)
      {["req" := DReq]}
    = Ok (RStr "!#2 ''follows'' #1")
  ∧ render (mkRelation None None (Some "1") (Some "2") (Some "blocking") false)
      {["req" := DReq; "format" := DVal (Some "wiki")]}
    = Ok (RStr "!#1 ''is blocking'' #2").
Proof.
  split; [|split].
  - apply (proj1 (render_wiki _ ∅)). reflexivity.
  - destruct (proj2 (render_wiki
                       (mkRelation None None (Some "1") (Some "2")
                          (Some "follows") true)
                       {["req" := DReq]}))
      as (typelbl & Hr & Hun & _); [reflexivity | by left |].
    rewrite (Hun eq_refl) in Hr. exact Hr.
  - destruct (proj2 (render_wiki
                       (mkRelation None None (Some "1") (Some "2")
                          (Some "blocking") false)
                       {["req" := DReq; "format" := DVal (Some "wiki")]}))
      as (typelbl & Hr & _ & Hlbl); [reflexivity | by right |].
    rewrite (Hlbl "blocking" "is blocking" "is blocked by" eq_refl
               ltac:(left)) in Hr.
    exact Hr.
Defined.

(** C10 as stated fails: a [req] entry that is present and truthy but is
    not a request, here the string [x], makes [render] raise
    [AttributeError] at [web_context(req)]; no wiki text is returned. *)
Lemma render_wiki_counterexample :
  ¬ (∀ (self : Relation) (data : gmap string dataval),
       dtruthy (default (DVal None) (data !! "req")) = true →
       data !! "format" = None ∨ data !! "format" = Some (DVal (Some "wiki")) →
       ∃ wiki, render self data = Ok (RStr wiki)).
Proof.
  intros Hclaim.
  destruct (Hclaim (mkRelation None None (Some "1") (Some "2")
                      (Some "blocking") false)
              {["req" := DVal (Some "x")]})
    as [wiki Hwiki]; [reflexivity | by left |].
  vm_compute in Hwiki. discriminate.
Qed.

End Render.

(** ** Generators *)

Section Generators.
Context {A B : Type}.
Implicit Types (g : gen A) (body : B → gen A) (xs : list B).






End Generators.

(** ** Closing a ticket *)

Section Validate.
Import TicketRelations.




#[local] Arguments Ticket : simpl never.


Lemma Ticket_raise_kind (env : Env) (id : pystr) (e : exn) :
  Ticket env id = Raise e → e = ResourceNotFound.
Proof.
  unfold Ticket. destruct id as [text|]; [|done].
  destruct (valid_id text) as [n|]; [|by intros [= <-]].
  destruct (tickets env !! id_text n); [done|by intros [= <-]].
Qed.















Example validate_blocked :
  validate_ticket blocked_env closing_1
  = mkGen [ (None, block_msg (Some "2")); (None, child_msg (Some "3")) ] None.
Proof. vm_compute. reflexivity. Qed.

Example validate_dangling :
  validate_ticket dangling_env closing_1 = mkGen [] (Some ResourceNotFound).
Proof. vm_compute. reflexivity. Qed.

End Validate.

(** ** Matching the request path *)

Section MatchRequest.
Import TicketRelations.

Lemma append_nil_r (s : string) : s +:+ EmptyString = s.
Proof.
  induction s as [|c s IH]; [done|].
  change (String c (s +:+ EmptyString) = String c s). by rewrite IH.
Qed.

Lemma match_literal_Some (lit s r : string) :
  match_literal lit s = Some r ↔ s = lit +:+ r.
Proof.
  revert s. induction lit as [|a lit IH]; intros s; simpl.
  - split; [by intros [= ->] | by intros ->].
  - destruct s as [|b s]; [done|].
    case_bool_decide as Hab.
    + subst b. rewrite IH. split; [by intros -> | by intros [= ->]].
    + split; [done | intros [= ? ?]; by subst].
Qed.

(** The greedy run of digits splits the string before its first
    character that is not a digit. *)
Lemma match_digits_split (s ds r : string) :
  match_digits s = (ds, r) →
  s = ds +:+ r ∧ all_chars is_digit ds = true
  ∧ match_digits r = (EmptyString, r).
Proof.
  revert ds r. induction s as [|c s IH]; intros ds r; simpl.
  - by intros [= <- <-].
  - destruct (is_digit c) eqn:Hc.
    + destruct (match_digits s) as [ds' r'] eqn:Hs. intros [= <- <-].
      destruct (IH ds' r' eq_refl) as (-> & Hds & Hr).
      simpl. by rewrite Hc, Hds.
    + intros [= <- <-]. simpl. by rewrite Hc.
Qed.

Lemma match_digits_app (ds r : string) :
  all_chars is_digit ds = true →
  match_digits r = (EmptyString, r) →
  match_digits (ds +:+ r) = (ds, r).
Proof.
  intros Hds Hr. induction ds as [|c ds IH]; simpl; [done|].
  simpl in Hds. apply andb_true_iff in Hds as [Hc Hds].
  by rewrite Hc, IH.
Qed.

Lemma match_slashes_end_true (s : string) :
  match_slashes_end s = true ↔
  ∃ slashes tail,
    all_chars is_slash slashes = true
    ∧ (tail = EmptyString ∨ tail = String LF EmptyString)
    ∧ s = slashes +:+ tail.
Proof.
  split.
  - induction s as [|c s IH]; simpl.
    + intros _. exists EmptyString, EmptyString. by eauto.
    + case_bool_decide as Hc.
      * intros Hs. destruct (IH Hs) as (sl & tail & Hsl & Htail & ->).
        exists (String c sl), tail. simpl. unfold is_slash at 1.
        by rewrite bool_decide_eq_true_2.
      * intros [Hlf He]%andb_true_iff.
        apply bool_decide_eq_true in Hlf, He. subst.
        exists EmptyString, (String LF EmptyString). by eauto.
  - intros (sl & tail & Hsl & Htail & ->).
    induction sl as [|c sl IH]; simpl.
    + by destruct Htail as [-> | ->].
    + simpl in Hsl. apply andb_true_iff in Hsl as [Hc Hsl].
      apply bool_decide_eq_true in Hc. subst c.
      by rewrite bool_decide_eq_true_2, IH.
Qed.

#[local] Arguments match_literal : simpl never.
#[local] Arguments match_digits : simpl never.
#[local] Arguments match_slashes_end : simpl never.

(** The pattern accepts exactly the lines of the relation management
    page, and its group is their run of digits. *)
Lemma re_match_Some (path ds : string) :
  re_match path = Some ds ↔ relations_line path ds.
Proof.
  unfold re_match, relations_line. split.
  - destruct (match_literal "/ticket/" path) as [s1|] eqn:H1;
      simpl; [|discriminate].
    apply match_literal_Some in H1. subst path.
    destruct (match_digits s1) as [ds' s2] eqn:H2.
    apply match_digits_split in H2 as (-> & Hds & _).
    case_bool_decide as Hne; [discriminate|].
    destruct (match_literal "/relations" s2) as [s3|] eqn:H3;
      simpl; [|discriminate].
    apply match_literal_Some in H3. subst s2.
    destruct (match_slashes_end s3) eqn:H4; [|discriminate].
    apply match_slashes_end_true in H4 as (sl & tail & Hsl & Htail & ->).
    intros [= <-]. split; [done|]. split; [done|].
    by exists sl, tail.
  - intros (Hne & Hds & sl & tail & Hsl & Htail & ->).
    rewrite (proj2 (match_literal_Some "/ticket/" _ _) eq_refl). simpl.
    rewrite (match_digits_app ds _ Hds) by reflexivity.
    rewrite bool_decide_eq_false_2 by done.
    rewrite (proj2 (match_literal_Some "/relations" _ _) eq_refl). simpl.
    rewrite (proj2 (match_slashes_end_true (sl +:+ tail))); [done|].
    by exists sl, tail.
Qed.

(** C8, amended: [match_request] returns [True] exactly for the paths
    [/ticket/<digits>/relations] with optional trailing slashes and at
    most one line feed after them; it then sets the request argument
    [id] to the digits; for every other path it returns [False] and
    leaves the request as it is. *)
Theorem match_request_line (req : Request) :
  ((match_request req).1 = true
   ↔ ∃ digits, relations_line (path_info req) digits)
  ∧ (∀ digits, relations_line (path_info req) digits →
     match_request req = (true, set_args req (<["id" := digits]> (args req))))
  ∧ ((∀ digits, ¬ relations_line (path_info req) digits) →
     match_request req = (false, req)).
Proof.
  unfold match_request.
  destruct (re_match (path_info req)) as [ds|] eqn:Hm.
  - apply re_match_Some in Hm as Hline. split; [|split].
    + split; [by exists ds | done].
    + intros digits Hd. apply re_match_Some in Hd.
      rewrite Hm in Hd. by injection Hd as ->.
    + intros Hno. by destruct (Hno ds).
  - split; [|split].
    + split; [done|]. intros [digits Hd]. apply re_match_Some in Hd.
      by rewrite Hm in Hd.
    + intros digits Hd. apply re_match_Some in Hd. by rewrite Hm in Hd.
    + done.
Qed.

Lemma match_request_line_witness :
  match_request (request_for "/ticket/42/relations/")
  = (true, set_args (request_for "/ticket/42/relations/") {["id" := "42"]}).
Proof.
  apply (proj1 (proj2 (match_request_line
                         (request_for "/ticket/42/relations/"))) "42").
  split; [done|]. split; [reflexivity|].
  exists "/", EmptyString. split; [reflexivity|]. split; [by left|reflexivity].
Defined.

(** C8 as stated fails: a path that ends in a line feed after
    [/relations] is matched, though something follows the slashes. *)
Lemma match_request_counterexample :
  ¬ (∀ req : Request,
       (match_request req).1 = true
       ↔ ∃ digits, relations_path (path_info req) digits).
Proof.
  intros Hclaim.
  destruct (Hclaim (request_for ("/ticket/1/relations" +:+ String LF EmptyString)))
    as [Hmatch _].
  destruct Hmatch as (ds & Hne & Hds & sl & Hsl & Hpath);
    [vm_compute; reflexivity|].
  assert (re_match ("/ticket/1/relations" +:+ String LF EmptyString) = Some ds)
    as Hre.
  { apply re_match_Some. split; [done|]. split; [done|].
    exists sl, EmptyString. split; [done|]. split; [by left|].
    by rewrite append_nil_r. }
  vm_compute in Hre. injection Hre as <-.
  vm_compute in Hpath. injection Hpath as <-.
  vm_compute in Hsl. discriminate.
Qed.

End MatchRequest.

(** ** The relation system *)

Section RelationSystem.

Lemma set_relation_same (env : Env) : set_relation env (relation env) = env.
Proof. by destruct env. Qed.

Lemma filter_all {A} (P : A → Prop) `{∀ x, Decision (P x)} (l : list A) :
  Forall P l → filter P l = l.
Proof.
  induction 1 as [|x l Hx _ IH]; [done|].
  by rewrite filter_cons_True, IH.
Qed.

Lemma id_text_inj (n m : N) : id_text n = id_text m → n = m.
Proof.
  unfold id_text. intros Heq. apply Unsigned.to_uint_inj.
  assert (Some (N.to_uint n) = Some (N.to_uint m)) as [= ->]; [|done].
  by rewrite <- !NilEmpty.usu, Heq.
Qed.

(** [add_relation] raises only what the handler of the form catches. *)
Lemma add_relation_raises (env : Env) (rel : Relation) (e : exn) :
  add_relation env rel = Raise e →
  e = ValidationError ∨ e = ResourceExistsError.
Proof.
  unfold add_relation.
  repeat (destruct (_ : bool); [intros [= <-]; by eauto|]). done.
Qed.

(** A relation that is accepted is appended as one new row that carries
    its four columns; the rows that were there stay as they are. *)
Lemma add_relation_Ok (env env' : Env) (rel : Relation) :
  add_relation env rel = Ok env' →
  env' = set_relation env (relation env ++ [stored (next_id (relation env)) rel]).
Proof.
  unfold add_relation.
  repeat (destruct (_ : bool); [done|]). by intros [= <-].
Qed.

(** An identical relation in the table has the relation rejected. *)
Lemma add_relation_duplicate (env : Env) (rel row : Relation) :
  row ∈ relation env → same_relation rel row = true →
  ∃ e, add_relation env rel = Raise e.
Proof.
  intros Hrow Hsame. unfold add_relation.
  destruct (negb (recognized (type rel))); [by eauto|].
  destruct (negb (_ && _)); [by eauto|].
  assert (existsb (same_relation rel) (relation env) = true) as ->; [|by eauto].
  apply existsb_exists. exists row. by rewrite <- list_elem_of_In.
Qed.

(** Loading a relation by id and deleting it removes the rows whose id
    has this text, and no other row. *)
Lemma delete_by_id (env : Env) (relid : string) :
  delete_relation env (Relation_by_id env relid)
  = set_relation env
      (filter (fun r => id_text <$> rel_id r ≠ Some relid) (relation env)).
Proof.
  unfold Relation_by_id, delete_relation.
  destruct (list_find _ (relation env)) as [[k r]|] eqn:Hfind.
  - apply list_find_Some in Hfind as (_ & Hr & _).
    destruct (rel_id r) as [i|] eqn:Hi; simpl in Hr; [|discriminate].
    injection Hr as Hr. f_equal. apply list_filter_iff. intros r'.
    destruct (rel_id r') as [i'|]; simpl; [|done].
    split; intros Hne Heq; apply Hne.
    + f_equal. apply id_text_inj. injection Heq as Heq. congruence.
    + injection Heq as ->. by rewrite Hr.
  - apply list_find_None in Hfind. simpl.
    by rewrite filter_all, set_relation_same.
Qed.

End RelationSystem.

(** ** The relation management handler *)

Section ProcessRequest.

(** An admitted POST that asks to add a relation ends as the add branch
    does, with the redirect when that does not raise. *)
Lemma process_request_add (env : Env) (req : Request) (tkt : TicketObj) :
  post_admitted env req tkt →
  truthy (args req !! "add-relation") = true →
  TicketRelations.process_request env req
  = match TicketRelations.add_branch env req with
    | (env', req', Raise e) => (env', req', Raise e)
    | (env', req', Ok _) => (env', req', Ok (redirect_of req tkt))
    end.
Proof.
  intros (Hview & Htkt & Hpost & Hmodify) Hadd. unfold TicketRelations.process_request.
  rewrite Hview, Htkt, Hmodify, Hadd. simpl.
  rewrite bool_decide_eq_true_2 by done.
  by destruct (TicketRelations.add_branch env req) as [[env' req'] [[]|e]].
Qed.

Lemma add_branch_rejected (env : Env) (req : Request) (rel : Relation) (e : exn) :
  requested req = Ok rel → add_relation env rel = Raise e →
  TicketRelations.add_branch env req = (env, add_warning req e, Ok ()).
Proof.
  unfold requested, TicketRelations.add_branch. intros -> Hadd. simpl. rewrite Hadd.
  by destruct (add_relation_raises _ _ _ Hadd) as [-> | ->].
Qed.

Lemma add_branch_accepted (env env' : Env) (req : Request) (rel : Relation) :
  requested req = Ok rel → add_relation env rel = Ok env' →
  TicketRelations.add_branch env req
  = (env', add_notice req (RelationAdded (source rel) (dest rel)), Ok ()).
Proof.
  unfold requested, TicketRelations.add_branch. intros -> Hadd. simpl. by rewrite Hadd.
Qed.

(** C3: an admitted add-relation POST whose requested relation has the
    [(realm, source, dest, type)] combination of a stored one is rejected:
    [add_relation] raises, the handler turns the exception into a
    warning, adds no notice, leaves the stored relations as they are and
    redirects. *)
Theorem duplicate_rejected (env : Env) (req : Request) (tkt : TicketObj)
    (rel row : Relation) :
  post_admitted env req tkt →
  truthy (args req !! "add-relation") = true →
  requested req = Ok rel →
  row ∈ relation env → same_relation rel row = true →
  ∃ e, add_relation env rel = Raise e
       ∧ (e = ResourceExistsError ∨ e = ValidationError)
       ∧ TicketRelations.process_request env req
         = (env, add_warning req e, Ok (redirect_of req tkt))
       ∧ notices (add_warning req e) = notices req
       ∧ warnings (add_warning req e) = warnings req ++ [e].
Proof.
  intros Hadm Hadd Hreq Hrow Hsame.
  destruct (add_relation_duplicate env rel row Hrow Hsame) as [e He].
  exists e. split; [done|].
  split; [destruct (add_relation_raises _ _ _ He); by eauto|].
  rewrite (process_request_add env req tkt Hadm Hadd).
  by rewrite (add_branch_rejected env req rel e Hreq He).
Qed.

Lemma duplicate_rejected_witness :
  ∃ e, TicketRelations.process_request duplicate_env
         (post_form [("add-relation", "Add"); ("current-tkt", "1");
                     ("other-tkt", "2"); ("relation-type", "duplicate")] [])
       = (duplicate_env,
          add_warning
            (post_form [("add-relation", "Add"); ("current-tkt", "1");
                        ("other-tkt", "2"); ("relation-type", "duplicate")] [])
            e,
          Ok (Redirect (Href "/ticket/1/relations"))).
Proof.
  destruct (duplicate_rejected duplicate_env
              (post_form [("add-relation", "Add"); ("current-tkt", "1");
                          ("other-tkt", "2"); ("relation-type", "duplicate")] [])
              (mkTicket (Some "1") {["status" := "new"]})
              (Relation_new (Some "ticket") (Some "1") (Some "2")
                 (Some "duplicate"))
              (mkRelation (Some 1%N) (Some "ticket") (Some "1") (Some "2")
                 (Some "duplicate") false))
    as (e & _ & _ & Hp & _).
  - repeat split; vm_compute; reflexivity.
  - vm_compute. reflexivity.
  - vm_compute. reflexivity.
  - vm_compute. left.
  - vm_compute. reflexivity.
  - exists e. exact Hp.
Defined.

(** C9: in an admitted add-relation POST whose relation type starts
    with [!], the relation handed to the relation system, and stored when
    it is accepted, has the submitted [other-tkt] as source, the
    submitted [current-tkt] as destination and the type without the
    [!]; without the leading [!], source, destination and type are those
    submitted. *)
Theorem reversed_relation_stored (env : Env) (req : Request) (tkt : TicketObj)
    (c : Ascii.ascii) (rest : string) :
  post_admitted env req tkt →
  truthy (args req !! "add-relation") = true →
  args req !! "relation-type" = Some (String c rest) →
  ∃ rel,
    requested req = Ok rel
    ∧ realm rel = Some "ticket"
    ∧ (c = BANG →
       source rel = args req !! "other-tkt"
       ∧ dest rel = args req !! "current-tkt"
       ∧ type rel = Some rest)
    ∧ (c ≠ BANG →
       source rel = args req !! "current-tkt"
       ∧ dest rel = args req !! "other-tkt"
       ∧ type rel = Some (String c rest))
    ∧ (∀ env', add_relation env rel = Ok env' →
       ∃ row,
         relation env' = relation env ++ [row]
         ∧ source row = source rel ∧ dest row = dest rel
         ∧ type row = type rel ∧ realm row = realm rel
         ∧ TicketRelations.process_request env req
           = (env', add_notice req (RelationAdded (source rel) (dest rel)),
              Ok (redirect_of req tkt)))
    ∧ (∀ e, add_relation env rel = Raise e →
       TicketRelations.process_request env req
       = (env, add_warning req e, Ok (redirect_of req tkt))).
Proof.
  intros Hadm Hadd Htype.
  assert (∃ rel, requested req = Ok rel
                 ∧ rel = if bool_decide (c = BANG)
                         then Relation_new (Some "ticket")
                                (args req !! "other-tkt")
                                (args req !! "current-tkt") (Some rest)
                         else Relation_new (Some "ticket")
                                (args req !! "current-tkt")
                                (args req !! "other-tkt")
                                (Some (String c rest)))
    as (rel & Hreq & Hrel).
  { unfold requested, TicketRelations.requested_relation. rewrite Htype.
    case_bool_decide; by eauto. }
  exists rel. split; [done|]. repeat split.
  - subst rel. by case_bool_decide.
  - subst rel. by rewrite bool_decide_eq_true_2.
  - subst rel. by rewrite bool_decide_eq_true_2.
  - subst rel. by rewrite bool_decide_eq_true_2.
  - subst rel. by rewrite bool_decide_eq_false_2.
  - subst rel. by rewrite bool_decide_eq_false_2.
  - subst rel. by rewrite bool_decide_eq_false_2.
  - intros env' Hok. exists (stored (next_id (relation env)) rel).
    rewrite (add_relation_Ok _ _ _ Hok). repeat split.
    rewrite (process_request_add env req tkt Hadm Hadd).
    rewrite (add_branch_accepted env env' req rel Hreq Hok).
    by rewrite (add_relation_Ok _ _ _ Hok).
  - intros e He.
    rewrite (process_request_add env req tkt Hadm Hadd).
    by rewrite (add_branch_rejected env req rel e Hreq He).
Qed.

Lemma reversed_relation_stored_witness :
  ∃ rel,
    requested
      (post_form [("add-relation", "Add"); ("current-tkt", "1");
                  ("other-tkt", "2"); ("relation-type", "!blocking")] [])
    = Ok rel
    ∧ source rel = Some "2" ∧ dest rel = Some "1"
    ∧ type rel = Some "blocking".
Proof.
  destruct (reversed_relation_stored fresh_env
              (post_form [("add-relation", "Add"); ("current-tkt", "1");
                          ("other-tkt", "2"); ("relation-type", "!blocking")] [])
              (mkTicket (Some "1") {["status" := "new"]})
              BANG "blocking")
    as (rel & Hreq & _ & Hrev & _).
  - repeat split; vm_compute; reflexivity.
  - vm_compute. reflexivity.
  - vm_compute. reflexivity.
  - exists rel. split; [exact Hreq|]. exact (Hrev eq_refl).
Defined.

Example reversed_relation_added :
  relation
    (TicketRelations.process_request fresh_env
       (post_form [("add-relation", "Add"); ("current-tkt", "1");
                   ("other-tkt", "2"); ("relation-type", "!blocking")] [])).1.1
  = [ mkRelation (Some 1%N) (Some "ticket") (Some "2") (Some "1")
        (Some "blocking") false ].
Proof. vm_compute. reflexivity. Qed.

(** The fold of the remove branch drops the rows whose id is selected
    and keeps every other row as it is. *)
Lemma remove_fold (ids : list string) (env : Env) (req : Request) :
  ∃ req',
    foldl TicketRelations.remove_one (env, req) ids
    = (set_relation env
         (filter (fun r => is_selected ids r = false) (relation env)),
       req').
Proof.
  revert env req. induction ids as [|relid ids IH]; intros env req.
  - exists req. simpl. rewrite filter_all, set_relation_same; [done|].
    apply Forall_forall. intros r _. unfold is_selected.
    destruct (rel_id r); [|done]. apply bool_decide_eq_false_2, not_elem_of_nil.
  - cbn [foldl]. unfold TicketRelations.remove_one at 2.
    cbv zeta. rewrite delete_by_id.
    destruct (IH (set_relation env
                    (filter (fun r => id_text <$> rel_id r ≠ Some relid)
                       (relation env)))
                (add_notice req
                   (RelationDeleted (source (Relation_by_id env relid))
                      (dest (Relation_by_id env relid)))))
      as [req' ->].
    exists req'. f_equal. unfold set_relation. simpl. f_equal.
    rewrite list_filter_filter. apply list_filter_iff. intros r.
    unfold is_selected. destruct (rel_id r) as [i|]; simpl.
    + rewrite !bool_decide_eq_false, elem_of_cons. split.
      * intros [Hnot Hne] [Heq|Hin]; [apply Hne; by rewrite Heq | by apply Hnot].
      * intros Hnot. split; [intros Hin; apply Hnot; by right|].
        intros [= Heq]. apply Hnot. by left.
    + split; [done | by intros _].
Qed.

(** C4: an admitted remove-relation POST deletes exactly the rows whose
    id is among the selected ids: the relation table that results is the
    old one without these rows, every other row is as it was, and the
    other tables are untouched. *)
Theorem selected_relations_removed (env : Env) (req : Request) (tkt : TicketObj) :
  post_admitted env req tkt →
  truthy (args req !! "add-relation") = false →
  truthy (args req !! "remove-relation") = true →
  ∃ req',
    TicketRelations.process_request env req
    = (set_relation env
         (filter (fun r => is_selected (sel req) r = false) (relation env)),
       req', Ok (redirect_of req tkt)).
Proof.
  intros (Hview & Htkt & Hpost & Hmodify) Hadd Hremove.
  unfold TicketRelations.process_request.
  rewrite Hview, Htkt, Hmodify, Hadd, Hremove. simpl.
  rewrite bool_decide_eq_true_2 by done. unfold TicketRelations.remove_branch.
  destruct (remove_fold (sel req) env req) as [req' ->]. by exists req'.
Qed.

Lemma selected_relations_removed_witness :
  ∃ req',
    TicketRelations.process_request duplicate_env (post_form [("remove-relation", "Remove")] ["1"])
    = (set_relation duplicate_env [], req',
       Ok (Redirect (Href "/ticket/1/relations"))).
Proof.
  destruct (selected_relations_removed duplicate_env
              (post_form [("remove-relation", "Remove")] ["1"])
              (mkTicket (Some "1") {["status" := "new"]}))
    as [req' Hp].
  - repeat split; vm_compute; reflexivity.
  - vm_compute. reflexivity.
  - vm_compute. reflexivity.
  - exists req'. exact Hp.
Defined.

(** The permission and not-found errors, and the warnings of the add
    branch, in the order of the checks. *)
Lemma process_request_forbidden (env : Env) (req : Request) :
  perm_on req "TICKET_VIEW" TicketRelations.realm (args req !! "id") = false →
  TicketRelations.process_request env req = (env, req, Raise PermissionError).
Proof. intros Hview. unfold TicketRelations.process_request. by rewrite Hview. Qed.

Lemma process_request_not_found (env : Env) (req : Request) :
  perm_on req "TICKET_VIEW" TicketRelations.realm (args req !! "id") = true →
  Ticket env (args req !! "id") = Raise ResourceNotFound →
  TicketRelations.process_request env req = (env, req, Raise ResourceNotFound).
Proof.
  intros Hview Htkt. unfold TicketRelations.process_request.
  by rewrite Hview, Htkt.
Qed.

Lemma process_request_read_only (env : Env) (req : Request) (tkt : TicketObj) :
  perm_on req "TICKET_VIEW" TicketRelations.realm (args req !! "id") = true →
  Ticket env (args req !! "id") = Ok tkt →
  method req = "POST" → perm_require req "TICKET_MODIFY" = false →
  TicketRelations.process_request env req = (env, req, Raise PermissionError).
Proof.
  intros Hview Htkt Hpost Hmodify. unfold TicketRelations.process_request.
  rewrite Hview, Htkt, Hmodify. simpl. by rewrite bool_decide_eq_true_2.
Qed.

(** What the validation of the relation system rejects. *)
Lemma add_relation_invalid (env : Env) (rel : Relation) :
  recognized (type rel) = false ∨ resolves env (source rel) = false
  ∨ resolves env (dest rel) = false
  ∨ (∃ row, row ∈ relation env ∧ same_relation rel row = true) →
  ∃ e, add_relation env rel = Raise e.
Proof.
  intros [Hun|[Hsrc|[Hdst|(row & Hrow & Hsame)]]].
  - unfold add_relation. rewrite Hun. by eauto.
  - unfold add_relation. rewrite Hsrc.
    destruct (negb (recognized (type rel))); by eauto.
  - unfold add_relation. rewrite Hdst, andb_false_r.
    destruct (negb (recognized (type rel))); by eauto.
  - by eapply add_relation_duplicate.
Qed.

(** C6, at the inputs where the code fails it: an add-relation POST by a
    user who may view and modify ticket 1, with an empty relation type,
    and one without a relation type.  Neither type is a recognized one, but
    the request does not end with a warning: [rel_type[0]] raises
    [IndexError], or [TypeError], outside the exceptions the handler
    catches, and the request fails with no warning added. *)
Theorem relation_type_uncaught :
  recognized (Some EmptyString) = false
  ∧ TicketRelations.process_request fresh_env
      (post_form [("add-relation", "Add"); ("current-tkt", "1");
                  ("other-tkt", "2"); ("relation-type", EmptyString)] [])
    = (fresh_env,
       post_form [("add-relation", "Add"); ("current-tkt", "1");
                  ("other-tkt", "2"); ("relation-type", EmptyString)] [],
       Raise IndexError)
  ∧ TicketRelations.process_request fresh_env
      (post_form [("add-relation", "Add"); ("current-tkt", "1");
                  ("other-tkt", "2")] [])
    = (fresh_env,
       post_form [("add-relation", "Add"); ("current-tkt", "1");
                  ("other-tkt", "2")] [],
       Raise TypeError)
  ∧ TicketRelations.caught IndexError = false
  ∧ TicketRelations.caught TypeError = false.
Proof. repeat split; vm_compute; reflexivity. Qed.

End ProcessRequest.

(** ** The ticket change listener *)

Section Listener.

(** What [ticket_changed] may do to the relation table before it
    removes the transient rows: nothing, or append the duplicate relation
    of a ticket that was resolved as a duplicate. *)
Lemma add_duplicate_rows (env env1 : Env) (ticket : TicketObj)
    (old_values : gmap string pystr) :
  TicketRelations.add_duplicate env ticket old_values = Ok env1 →
  tickets env1 = tickets env
  ∧ ticket_change env1 = ticket_change env
  ∧ ticket_custom env1 = ticket_custom env
  ∧ (relation env1 = relation env
     ∨ (is_Some (old_values !! "resolution")
        ∧ getitem ticket "resolution" = Some "duplicate"
        ∧ ∃ row, relation env1 = relation env ++ [row])).
Proof.
  unfold TicketRelations.add_duplicate.
  case_bool_decide as Hold; [|intros [= <-]; by eauto].
  destruct (getitem ticket RELDATA_FIELD) as [data|]; [|done].
  case_bool_decide as Hdup; [|intros [= <-]; by eauto].
  intros Hadd. apply add_relation_Ok in Hadd. subst env1. simpl.
  repeat split. right. by eauto.
Qed.

(** When [ticket_changed] returns, the transient rows of the ticket
    are gone from both tables. *)
Lemma ticket_changed_clean (env env' : Env) (ticket : TicketObj)
    (old_values : gmap string pystr) :
  TicketRelations.ticket_changed env ticket old_values = (env', Ok ()) →
  no_relationdata env' (ticket_id ticket).
Proof.
  unfold TicketRelations.ticket_changed.
  destruct (TicketRelations.add_duplicate env ticket old_values)
    as [env1|e]; [|done].
  intros [= <-]. split; simpl; intros r Hr;
    by apply list_elem_of_filter in Hr as [Hr _].
Qed.

(** [ticket_created] removes the transient row of the new ticket. *)
Lemma ticket_created_clean (env : Env) (ticket : TicketObj) :
  ∀ r, r ∈ ticket_custom (TicketRelations.ticket_created env ticket) →
       ¬ (Some (cst_ticket r) = ticket_id ticket ∧ cst_name r = RELDATA_FIELD).
Proof.
  intros r Hr. unfold TicketRelations.ticket_created in Hr. simpl in Hr.
  by apply list_elem_of_filter in Hr as [Hr _].
Qed.

(** C7, at the input where the code fails it: ticket 1 is resolved as a
    duplicate of ticket 2 while that relation is already stored;
    [add_relation] raises, [ticket_changed] ends before its DELETE
    statements, and the [relationdata] rows of the ticket stay in
    [ticket_change] and in [ticket_custom]. *)
Theorem relationdata_left_behind :
  TicketRelations.ticket_changed duplicate_env resolved_1 resolution_changed
  = (duplicate_env, Raise ResourceExistsError)
  ∧ mkChangeRow "1" RELDATA_FIELD EmptyString "#2" ∈ ticket_change duplicate_env
  ∧ mkCustomRow "1" RELDATA_FIELD "#2" ∈ ticket_custom duplicate_env
  ∧ ¬ no_relationdata duplicate_env (ticket_id resolved_1).
Proof.
  split; [vm_compute; reflexivity|].
  split; [left|]. split; [left|].
  intros [_ Hcustom].
  apply (Hcustom (mkCustomRow "1" RELDATA_FIELD "#2")); [left|done].
Qed.

Example ticket_changed_adds_duplicate :
  (TicketRelations.ticket_changed fresh_env resolved_1 resolution_changed)
  = (mkEnv (tickets fresh_env)
       [ mkRelation (Some 1%N) (Some "ticket") (Some "1") (Some "2")
           (Some "duplicate") false ] [] [],
     Ok ()).
Proof. vm_compute. reflexivity. Qed.

End Listener.

(** ** The life of a relation *)

Section Lifecycle.

(** What a request does to the relation table: nothing, or the add form
    appends one row, or the remove form drops the selected rows. *)
Lemma process_request_rows (env : Env) (req : Request) :
  relation (TicketRelations.process_request env req).1.1 = relation env
  ∨ (is_add_form (ProcessRequest req)
     ∧ ∃ row, relation (TicketRelations.process_request env req).1.1
              = relation env ++ [row])
  ∨ (is_remove_form (ProcessRequest req)
     ∧ relation (TicketRelations.process_request env req).1.1
       = filter (fun r => is_selected (sel req) r = false) (relation env)).
Proof.
  unfold TicketRelations.process_request.
  destruct (negb (perm_on _ _ _ _)); [by left|].
  destruct (Ticket env _) as [tkt|e]; [|by left].
  case_bool_decide as Hpost; [|by left].
  destruct (negb (perm_require _ _)); [by left|].
  destruct (truthy (args req !! "add-relation")) eqn:Hadd.
  - unfold TicketRelations.add_branch.
    destruct (TicketRelations.requested_relation _ _ _) as [rel|e]; simpl.
    + destruct (add_relation env rel) as [env'|e] eqn:Hrel; simpl.
      * right. left. split; [by exists req|].
        apply add_relation_Ok in Hrel. subst env'. by eauto.
      * left. by destruct (TicketRelations.caught e).
    + left. by destruct (TicketRelations.caught e).
  - destruct (truthy (args req !! "remove-relation")) eqn:Hremove; [|by left].
    right. right. split; [by exists req|].
    unfold TicketRelations.remove_branch.
    by destruct (remove_fold (sel req) env req) as [req' ->].
Qed.

(** C5, amended: whatever entry point of the component runs, the
    relation table that results consists of rows of the old table, kept
    as they were and in their order, followed by rows that were added.
    Rows are added only by the add-relation form or by the change that
    resolves a ticket as a duplicate, and rows are dropped only by the
    remove-relation form; no stored row is changed in place. *)
Theorem relations_lifecycle (op : operation) (env : Env) :
  ∃ kept added,
    relation (run op env) = kept ++ added
    ∧ kept `sublist_of` relation env
    ∧ (added ≠ [] → is_add_form op ∨ is_duplicate_resolution op)
    ∧ (kept ≠ relation env → is_remove_form op).
Proof.
  assert (∀ env', relation env' = relation env →
            ∃ kept added,
              relation env' = kept ++ added
              ∧ kept `sublist_of` relation env
              ∧ (added ≠ [] → is_add_form op ∨ is_duplicate_resolution op)
              ∧ (kept ≠ relation env → is_remove_form op)) as Hsame.
  { intros env' ->. exists (relation env), [].
    by rewrite app_nil_r. }
  destruct op as [t|t|c|t old|t|t|t|req|req]; simpl;
    try (by apply Hsame).
  - unfold TicketRelations.ticket_changed.
    destruct (TicketRelations.add_duplicate env t old) as [env1|e] eqn:Hdup;
      [|by apply Hsame].
    apply add_duplicate_rows in Hdup
      as (_ & _ & _ & [Hrows|(Hold & Hres & row & Hrows)]); simpl.
    + by apply Hsame.
    + exists (relation env), [row]. split; [done|]. split; [done|].
      split; [|done]. intros _. right. by exists t, old.
  - destruct (process_request_rows env req)
      as [Hrows|[[Hform [row Hrows]]|[Hform Hrows]]].
    + by apply Hsame.
    + exists (relation env), [row]. split; [done|]. split; [done|].
      split; [by left|done].
    + exists (filter (fun r => is_selected (sel req) r = false) (relation env)), [].
      rewrite app_nil_r. split; [done|]. split; [apply sublist_filter|].
      split; [done|]. by intros _.
Qed.

Lemma relations_lifecycle_witness :
  ∃ kept added,
    relation (run (TicketChanged resolved_1 resolution_changed) fresh_env)
    = kept ++ added
    ∧ kept `sublist_of` relation fresh_env
    ∧ (added ≠ [] →
       is_duplicate_resolution (TicketChanged resolved_1 resolution_changed)).
Proof.
  destruct (relations_lifecycle
              (TicketChanged resolved_1 resolution_changed) fresh_env)
    as (kept & added & Hrows & Hkept & Hadded & _).
  exists kept, added. split; [exact Hrows|]. split; [exact Hkept|].
  intros Hne. destruct (Hadded Hne) as [(req & Hop & _)|Hdup].
  - discriminate Hop.
  - exact Hdup.
Defined.

(** C5 as stated fails: resolving ticket 1 as a duplicate of ticket 2
    stores a relation, and no add-relation form was submitted. *)
Lemma relations_lifecycle_counterexample :
  ¬ (∀ (op : operation) (env : Env) (row : Relation),
       row ∈ relation (run op env) → row ∉ relation env → is_add_form op).
Proof.
  intros Hclaim.
  destruct (Hclaim (TicketChanged resolved_1 resolution_changed) fresh_env
              (mkRelation (Some 1%N) (Some "ticket") (Some "1") (Some "2")
                 (Some "duplicate") false))
    as (req & Hop & _).
  - vm_compute. left.
  - apply not_elem_of_nil.
  - discriminate.
Qed.

End Lifecycle.


(** * Further properties of the component *)

(** ** Generators, continued *)

Section GeneratorFacts.
Context {A B : Type}.
Implicit Types (g : gen A) (body : B → gen A) (xs : list B).

Lemma gen_seq_raised_inv g1 g2 e :
  raised (gen_seq g1 g2) = Some e →
  raised g1 = Some e ∨ (raised g1 = None ∧ raised g2 = Some e).
Proof.
  unfold gen_seq. destruct (raised g1) as [e1|] eqn:H1.
  - rewrite H1. by left.
  - by right.
Qed.

Lemma gen_seq_silent g1 g2 :
  raised (gen_seq g1 g2) = None →
  raised g1 = None ∧ raised g2 = None
  ∧ yielded (gen_seq g1 g2) = yielded g1 ++ yielded g2.
Proof.
  unfold gen_seq. destruct (raised g1) as [e1|] eqn:H1.
  - by rewrite H1.
  - done.
Qed.

Lemma gen_seq_yielded_elem g1 g2 a :
  a ∈ yielded (gen_seq g1 g2) → a ∈ yielded g1 ∨ a ∈ yielded g2.
Proof.
  unfold gen_seq. destruct (raised g1); [by left|].
  simpl. by rewrite elem_of_app.
Qed.

Lemma gen_seq_yielded_length g1 g2 :
  (length (yielded (gen_seq g1 g2))
   ≤ length (yielded g1) + length (yielded g2))%nat.
Proof.
  unfold gen_seq. destruct (raised g1); simpl; [lia|].
  rewrite length_app. lia.
Qed.

Lemma gen_for_raised_inv xs body e :
  raised (gen_for xs body) = Some e → ∃ x, x ∈ xs ∧ raised (body x) = Some e.
Proof.
  induction xs as [|x xs IH]; [done|]. simpl.
  intros [Hx|[_ Hxs]]%gen_seq_raised_inv.
  - exists x. split; [by left|done].
  - destruct (IH Hxs) as (y & Hy & He). exists y. split; [by right|done].
Qed.

Lemma gen_for_silent xs body :
  raised (gen_for xs body) = None → ∀ x, x ∈ xs → raised (body x) = None.
Proof.
  induction xs as [|x xs IH]; intros Hr y Hy; [by apply elem_of_nil in Hy|].
  simpl in Hr. apply gen_seq_silent in Hr as (Hx & Hxs & _).
  apply elem_of_cons in Hy as [->|Hy]; [done|by apply IH].
Qed.

Lemma gen_for_yielded_elem xs body a :
  a ∈ yielded (gen_for xs body) → ∃ x, x ∈ xs ∧ a ∈ yielded (body x).
Proof.
  induction xs as [|x xs IH]; simpl; [by intros ?%elem_of_nil|].
  intros [Hx|Hxs]%gen_seq_yielded_elem.
  - exists x. split; [by left|done].
  - destruct (IH Hxs) as (y & Hy & Ha). exists y. split; [by right|done].
Qed.

Lemma gen_for_yielded_length xs body :
  (∀ x, (length (yielded (body x)) ≤ 1)%nat) →
  (length (yielded (gen_for xs body)) ≤ length xs)%nat.
Proof.
  intros Hbody. induction xs as [|x xs IH]; simpl; [lia|].
  pose proof (gen_seq_yielded_length (body x) (gen_for xs body)).
  specialize (Hbody x). lia.
Qed.

End GeneratorFacts.

(** ** Validation of a ticket, continued *)

Section ValidateFacts.
Import TicketRelations.

#[local] Arguments Ticket : simpl never.

Lemma check_open_yielded env other msg :
  yielded (check_open env other msg) = []
  ∨ yielded (check_open env other msg) = [(None, msg other)].
Proof.
  unfold check_open. destruct (Ticket env other); [|by left].
  case_bool_decide; by eauto.
Qed.

Lemma check_open_raised env other msg e :
  raised (check_open env other msg) = Some e →
  e = ResourceNotFound ∧ Ticket env other = Raise ResourceNotFound.
Proof.
  unfold check_open. destruct (Ticket env other) as [tkt|e'] eqn:Htkt.
  - by case_bool_decide.
  - intros [= <-]. by rewrite (Ticket_raise_kind _ _ _ Htkt).
Qed.

Lemma check_open_silent env other msg :
  raised (check_open env other msg) = None →
  yielded (check_open env other msg) = [] →
  ∃ tkt, Ticket env other = Ok tkt ∧ getitem tkt "status" = Some "closed".
Proof.
  unfold check_open. destruct (Ticket env other) as [tkt|e]; [|done].
  case_bool_decide as Hstatus; [done|]. intros _ _. exists tkt. split; [done|].
  destruct (decide (getitem tkt "status" = Some "closed")); [done|].
  by destruct Hstatus.
Qed.

(** A loop of [validate_ticket] that finished without a problem found
    every ticket at the other end closed. *)
Lemma check_loop_silent (env : Env) (rels : list Relation)
    (other : Relation → pystr) (msg : pystr → string) :
  raised (gen_for rels (fun rel => check_open env (other rel) msg)) = None →
  yielded (gen_for rels (fun rel => check_open env (other rel) msg)) = [] →
  ∀ rel, rel ∈ rels →
    ∃ tkt, Ticket env (other rel) = Ok tkt ∧ getitem tkt "status" = Some "closed".
Proof.
  induction rels as [|r rels IH]; intros Hr Hy rel Hrel;
    [by apply elem_of_nil in Hrel|].
  simpl in Hr, Hy. apply gen_seq_silent in Hr as (Hr1 & Hr2 & Heq).
  rewrite Heq in Hy. apply app_eq_nil in Hy as [Hy1 Hy2].
  apply elem_of_cons in Hrel as [->|Hrel].
  - by apply (check_open_silent env (other r) msg).
  - by apply IH.
Qed.

(** The part of [validate_ticket] that checks the target of a duplicate. *)
Lemma duplicate_part (env : Env) (ticket : TicketObj) :
  getitem ticket "status" ≠ Some "closed" →
  validate_ticket env ticket
  = if bool_decide (getitem ticket "resolution" = Some "duplicate") then
      match getitem ticket RELDATA_FIELD with
      | None => gen_raise AttributeError
      | Some data =>
          match Ticket env (Some (strip "# " data)) with
          | Ok _ => gen_skip
          | Raise _ => gen_yield (None, missing_msg (strip "# " data))
          end
      end
    else gen_skip.
Proof.
  intros Hopen. unfold validate_ticket.
  rewrite (bool_decide_eq_false_2 _ Hopen).
  case_bool_decide; [|done].
  destruct (getitem ticket RELDATA_FIELD) as [data|]; [|done].
  cbn zeta.
  destruct (Ticket env (Some (strip "# " data))) as [tkt|e] eqn:Htkt; [done|].
  by rewrite (Ticket_raise_kind _ _ _ Htkt).
Qed.

(** X1: A ticket that is not being closed is never held back by relations:
    [validate_ticket] does not look at the relation table, and yields at
    most the one problem of a duplicate whose target is missing. *)
Theorem open_ticket_ignores_relations (env : Env) (ticket : TicketObj)
    (rows : list Relation) :
  getitem ticket "status" ≠ Some "closed" →
  validate_ticket (set_relation env rows) ticket = validate_ticket env ticket
  ∧ (length (yielded (validate_ticket env ticket)) ≤ 1)%nat.
Proof.
  intros Hopen. rewrite !duplicate_part by done. split; [done|].
  case_bool_decide; [|simpl; lia].
  destruct (getitem ticket RELDATA_FIELD); [|simpl; lia].
  destruct (Ticket env _); simpl; lia.
Qed.

Lemma open_ticket_ignores_relations_witness :
  validate_ticket (set_relation dangling_env []) editing_1
  = validate_ticket dangling_env editing_1
  ∧ (length (yielded (validate_ticket dangling_env editing_1)) ≤ 1)%nat.
Proof.
  apply (open_ticket_ignores_relations dangling_env editing_1 []).
  vm_compute. discriminate.
Defined.

(** X2: When [validate_ticket] finishes without a problem, the closure it
    lets through is sound: every ticket that blocks the ticket and every
    child of it loads and is closed, and the host loads a ticket for the
    number read from the relation data of a duplicate. *)
Theorem accepted_closure_sound (env : Env) (ticket : TicketObj) :
  validate_ticket env ticket = mkGen [] None →
  (getitem ticket "status" = Some "closed" →
   (∀ rel, rel ∈ blockers env ticket →
      ∃ tkt, Ticket env (source rel) = Ok tkt
             ∧ getitem tkt "status" = Some "closed")
   ∧ (∀ rel, rel ∈ children env ticket →
        ∃ tkt, Ticket env (dest rel) = Ok tkt
               ∧ getitem tkt "status" = Some "closed"))
  ∧ (getitem ticket "resolution" = Some "duplicate" →
     ∃ data, getitem ticket RELDATA_FIELD = Some data
             ∧ ∃ tkt, Ticket env (Some (strip "# " data)) = Ok tkt).
Proof.
  intros Hok.
  assert (raised (validate_ticket env ticket) = None) as Hr by (by rewrite Hok).
  assert (yielded (validate_ticket env ticket) = []) as Hy by (by rewrite Hok).
  clear Hok. unfold validate_ticket in Hr, Hy.
  apply gen_seq_silent in Hr as (Hr1 & Hr2 & Heq).
  rewrite Heq in Hy. apply app_eq_nil in Hy as [Hy1 Hy2]. clear Heq. split.
  - intros Hclosed. rewrite (bool_decide_eq_true_2 _ Hclosed) in Hr1, Hy1.
    apply gen_seq_silent in Hr1 as (Hb & Hc & Heq).
    rewrite Heq in Hy1. apply app_eq_nil in Hy1 as [Hyb Hyc].
    split.
    + by apply (check_loop_silent env _ source block_msg).
    + by apply (check_loop_silent env _ dest child_msg).
  - intros Hdup. rewrite (bool_decide_eq_true_2 _ Hdup) in Hr2, Hy2.
    destruct (getitem ticket RELDATA_FIELD) as [data|]; [|done].
    exists data. split; [done|]. cbn zeta in Hr2, Hy2.
    destruct (Ticket env (Some (strip "# " data))) as [tkt|e] eqn:Htkt;
      [by eauto|].
    rewrite (Ticket_raise_kind _ _ _ Htkt) in Hy2. done.
Qed.

Lemma accepted_closure_sound_witness :
  ((∀ rel, rel ∈ blockers settled_env closing_1 →
      ∃ tkt, Ticket settled_env (source rel) = Ok tkt
             ∧ getitem tkt "status" = Some "closed")
   ∧ (∀ rel, rel ∈ children settled_env closing_1 →
        ∃ tkt, Ticket settled_env (dest rel) = Ok tkt
               ∧ getitem tkt "status" = Some "closed"))
  ∧ ∃ data, getitem resolving_02 RELDATA_FIELD = Some data
            ∧ ∃ tkt, Ticket fresh_env (Some (strip "# " data)) = Ok tkt.
Proof.
  split.
  - apply (proj1 (accepted_closure_sound settled_env closing_1
                    ltac:(vm_compute; reflexivity))).
    reflexivity.
  - apply (proj2 (accepted_closure_sound fresh_env resolving_02
                    ltac:(vm_compute; reflexivity))).
    reflexivity.
Defined.

(** X3: Every problem [validate_ticket] yields is an overall problem of the
    ticket (its field is [None]), and there is at most one for each
    blocking relation, one for each child relation and one for the target
    of a duplicate. *)
Theorem problems_are_overall (env : Env) (ticket : TicketObj) :
  (∀ p, p ∈ yielded (validate_ticket env ticket) → p.1 = None)
  ∧ (length (yielded (validate_ticket env ticket))
     ≤ length (blockers env ticket) + length (children env ticket) + 1)%nat.
Proof.
  assert (∀ other msg p,
            p ∈ yielded (check_open env other msg) → p.1 = None) as Hcheck.
  { intros other msg p.
    destruct (check_open_yielded env other msg) as [-> | ->].
    - by intros ?%elem_of_nil.
    - by intros ->%list_elem_of_singleton. }
  assert (∀ other msg,
            (length (yielded (check_open env other msg)) ≤ 1)%nat) as Hlen.
  { intros other msg.
    destruct (check_open_yielded env other msg) as [-> | ->]; simpl; lia. }
  unfold validate_ticket. split.
  - intros p [Hp|Hp]%gen_seq_yielded_elem.
    + destruct (bool_decide (getitem ticket "status" = Some "closed"));
        [|by apply elem_of_nil in Hp].
      apply gen_seq_yielded_elem in Hp as [Hp|Hp];
        apply gen_for_yielded_elem in Hp as (rel & _ & Hp);
        by eapply Hcheck.
    + destruct (bool_decide (getitem ticket "resolution" = Some "duplicate"));
        [|by apply elem_of_nil in Hp].
      destruct (getitem ticket RELDATA_FIELD) as [data|];
        [|by apply elem_of_nil in Hp].
      destruct (Ticket env (Some (strip "# " data))) as [tkt|e'] eqn:Htkt;
        [by apply elem_of_nil in Hp|].
      apply Ticket_raise_kind in Htkt as ->.
      by apply list_elem_of_singleton in Hp as ->.
  - etrans; [apply gen_seq_yielded_length|]. apply Nat.add_le_mono.
    + destruct (bool_decide (getitem ticket "status" = Some "closed"));
        [|simpl; lia].
      etrans; [apply gen_seq_yielded_length|]. apply Nat.add_le_mono.
      * apply gen_for_yielded_length. intros rel. apply Hlen.
      * apply gen_for_yielded_length. intros rel. apply Hlen.
    + destruct (bool_decide (getitem ticket "resolution" = Some "duplicate"));
        [|simpl; lia].
      destruct (getitem ticket RELDATA_FIELD) as [data|]; [|simpl; lia].
      destruct (Ticket env (Some (strip "# " data))) as [tkt|e'] eqn:Htkt;
        [simpl; lia|].
      apply Ticket_raise_kind in Htkt as ->. simpl. lia.
Qed.

(** X4: What [validate_ticket] raises: [ResourceNotFound], when the ticket is
    being closed and the ticket at the other end of a blocking or child
    relation does not exist, or [AttributeError], when the ticket is
    resolved as a duplicate and has no relation data. *)
Theorem validate_ticket_raises (env : Env) (ticket : TicketObj) (e : exn) :
  raised (validate_ticket env ticket) = Some e →
  (e = ResourceNotFound
   ∧ getitem ticket "status" = Some "closed"
   ∧ ((∃ rel, rel ∈ blockers env ticket
              ∧ Ticket env (source rel) = Raise ResourceNotFound)
      ∨ (∃ rel, rel ∈ children env ticket
                ∧ Ticket env (dest rel) = Raise ResourceNotFound)))
  ∨ (e = AttributeError
     ∧ getitem ticket "resolution" = Some "duplicate"
     ∧ getitem ticket RELDATA_FIELD = None).
Proof.
  unfold validate_ticket. intros [Hr|[_ Hr]]%gen_seq_raised_inv.
  - left. case_bool_decide as Hclosed; [|done].
    apply gen_seq_raised_inv in Hr as [Hr|[_ Hr]];
      apply gen_for_raised_inv in Hr as (rel & Hrel & Hr);
      apply check_open_raised in Hr as [-> Hr];
      (split; [done|]); (split; [done|]).
    + left. by exists rel.
    + right. by exists rel.
  - right. case_bool_decide as Hdup; [|done].
    destruct (getitem ticket RELDATA_FIELD) as [data|]; [|by injection Hr as <-].
    destruct (Ticket env (Some (strip "# " data))) as [tkt|e'] eqn:Htkt; [done|].
    apply Ticket_raise_kind in Htkt as ->. done.
Qed.

Lemma validate_ticket_raises_witness :
  (ResourceNotFound = ResourceNotFound
   ∧ getitem closing_1 "status" = Some "closed"
   ∧ ((∃ rel, rel ∈ blockers dangling_env closing_1
              ∧ Ticket dangling_env (source rel) = Raise ResourceNotFound)
      ∨ (∃ rel, rel ∈ children dangling_env closing_1
                ∧ Ticket dangling_env (dest rel) = Raise ResourceNotFound)))
  ∨ (ResourceNotFound = AttributeError
     ∧ getitem closing_1 "resolution" = Some "duplicate"
     ∧ getitem closing_1 RELDATA_FIELD = None).
Proof.
  apply (validate_ticket_raises dangling_env closing_1 ResourceNotFound).
  vm_compute. reflexivity.
Defined.

(** X5: The check of a duplicate: for a ticket that is not being closed and
    is resolved as a duplicate, [validate_ticket] reads the ticket number
    from the relation data without the [#] and the blanks around it, hands
    it to the host, and yields one problem naming that text when the host
    loads no ticket for it, and nothing when it loads one. *)
Theorem duplicate_target_checked (env : Env) (ticket : TicketObj) (data : string) :
  getitem ticket "status" ≠ Some "closed" →
  getitem ticket "resolution" = Some "duplicate" →
  getitem ticket RELDATA_FIELD = Some data →
  validate_ticket env ticket
  = mkGen (match Ticket env (Some (strip "# " data)) with
           | Ok _ => []
           | Raise _ => [(None, missing_msg (strip "# " data))]
           end) None.
Proof.
  intros Hopen Hdup Hdata. rewrite duplicate_part by done.
  rewrite (bool_decide_eq_true_2 _ Hdup), Hdata.
  by destruct (Ticket env _).
Qed.

Lemma duplicate_target_checked_witness :
  validate_ticket fresh_env resolving_1
  = mkGen [(None, "Ticket 5 does not exist.")] None
  ∧ validate_ticket fresh_env resolving_02 = mkGen [] None.
Proof.
  split.
  - apply (duplicate_target_checked fresh_env resolving_1 "#5").
    + vm_compute. discriminate.
    + vm_compute. reflexivity.
    + vm_compute. reflexivity.
  - apply (duplicate_target_checked fresh_env resolving_02 "#02").
    + vm_compute. discriminate.
    + vm_compute. reflexivity.
    + vm_compute. reflexivity.
Defined.

End ValidateFacts.

(** ** Stripping the relation data *)

Section Strip.
Variable chars : list Ascii.ascii.

Lemma append_cons (c : Ascii.ascii) (s r : string) :
  String c s +:+ r = String c (s +:+ r).
Proof. reflexivity. Qed.

Lemma lstrip_spec (s : string) :
  ∃ pre, s = pre +:+ lstrip chars s
         ∧ all_chars (in_chars chars) pre = true
         ∧ ¬ starts_with_any chars (lstrip chars s).
Proof.
  induction s as [|c s (pre & Hs & Hpre & Hstart)].
  - exists EmptyString. repeat split. by intros (c & s' & [=] & _).
  - simpl. case_bool_decide as Hc.
    + exists (String c pre). split; [by rewrite append_cons, <- Hs|].
      split; [|done]. simpl. unfold in_chars at 1.
      by rewrite bool_decide_eq_true_2.
    + exists EmptyString. repeat split.
      intros (c' & s' & [= <- <-] & Hc'). done.
Qed.

Lemma append_last_inv (s : string) (c d : Ascii.ascii) :
  s +:+ String c EmptyString = String d EmptyString → s = EmptyString ∧ c = d.
Proof.
  destruct s as [|a s]; [by intros [= ->]|].
  intros [= _ Hs]. by destruct s.
Qed.

Lemma ends_with_cons (c : Ascii.ascii) (s : string) :
  ends_with_any chars s → ends_with_any chars (String c s).
Proof. intros (d & s' & -> & Hd). by exists d, (String c s'). Qed.

Lemma ends_with_cons_inv (c d : Ascii.ascii) (s : string) :
  ends_with_any chars (String c (String d s)) →
  ends_with_any chars (String d s).
Proof.
  intros (a & s' & Heq & Ha). destruct s' as [|b s']; [done|].
  injection Heq as -> Heq. by exists a, s'.
Qed.

Lemma rstrip_spec (s : string) :
  ∃ suf, s = rstrip chars s +:+ suf
         ∧ all_chars (in_chars chars) suf = true
         ∧ ¬ ends_with_any chars (rstrip chars s).
Proof.
  induction s as [|c s (suf & Hs & Hsuf & Hend)].
  - exists EmptyString. repeat split. intros (c & s' & Heq & _).
    by destruct s'.
  - simpl. destruct (rstrip chars s) as [|d r] eqn:Hr.
    + case_bool_decide as Hc.
      * exists (String c suf). split; [by rewrite Hs|].
        split; [|intros (a & s' & Heq & _); by destruct s'].
        simpl. unfold in_chars at 1. by rewrite bool_decide_eq_true_2.
      * exists suf. split; [by rewrite Hs|]. split; [done|].
        intros (a & s' & Heq & Ha). symmetry in Heq.
        apply append_last_inv in Heq as [_ ->]. done.
    + exists suf. split; [by rewrite Hs|]. split; [done|].
      intros Hends. by apply Hend, (ends_with_cons_inv c).
Qed.

Lemma rstrip_keeps_start (s : string) :
  ¬ starts_with_any chars s → ¬ starts_with_any chars (rstrip chars s).
Proof.
  destruct s as [|c s]; [done|]. intros Hstart. simpl.
  assert (c ∉ chars) as Hc.
  { intros Hc. apply Hstart. by exists c, s. }
  destruct (rstrip chars s) as [|d r].
  - rewrite bool_decide_eq_false_2 by done.
    intros (a & s' & [= <- _] & Ha). done.
  - intros (a & s' & [= <- _] & Ha). done.
Qed.

Lemma lstrip_clean (s : string) :
  ¬ starts_with_any chars s → lstrip chars s = s.
Proof.
  destruct s as [|c s]; [done|]. intros Hstart. simpl.
  rewrite bool_decide_eq_false_2; [done|].
  intros Hc. apply Hstart. by exists c, s.
Qed.

Lemma rstrip_clean (s : string) :
  ¬ ends_with_any chars s → rstrip chars s = s.
Proof.
  induction s as [|c s IH]; [done|]. intros Hend. simpl.
  rewrite IH by (intros Hs; by apply Hend, ends_with_cons).
  destruct s as [|d s]; [|done].
  rewrite bool_decide_eq_false_2; [done|].
  intros Hc. apply Hend. by exists c, EmptyString.
Qed.

End Strip.

(** X6: [strip]: the result is the string without a run of the given
    characters at its front and one at its end, it neither starts nor
    ends with one of them, and stripping it again changes nothing.  So the
    ticket number read from the relation data has no [#] or blank around
    it, whatever the user typed around the digits. *)
Theorem strip_spec (chars s : string) :
  let cs := String.list_ascii_of_string chars in
  (∃ pre suf,
     s = pre +:+ strip chars s +:+ suf
     ∧ all_chars (in_chars cs) pre = true
     ∧ all_chars (in_chars cs) suf = true)
  ∧ ¬ starts_with_any cs (strip chars s)
  ∧ ¬ ends_with_any cs (strip chars s)
  ∧ strip chars (strip chars s) = strip chars s.
Proof.
  intros cs. unfold strip. fold cs.
  destruct (lstrip_spec cs s) as (pre & Hs & Hpre & Hstart).
  destruct (rstrip_spec cs (lstrip cs s)) as (suf & Hl & Hsuf & Hend).
  apply (rstrip_keeps_start cs) in Hstart as Hstart'.
  split; [|split; [done|split; [done|]]].
  - exists pre, suf. split; [|done]. by rewrite <- Hl.
  - by rewrite (lstrip_clean cs _ Hstart'), (rstrip_clean cs _ Hend).
Qed.

Example strip_ticket_number : strip "# " "  ##12 # " = "12".
Proof. reflexivity. Qed.

Example strip_keeps_inner : strip "# " "#1 2#" = "1 2".
Proof. reflexivity. Qed.

(** ** The ticket change listener, continued *)

Section ListenerFacts.

Lemma add_duplicate_raises (env : Env) (ticket : TicketObj)
    (old_values : gmap string pystr) (e : exn) :
  TicketRelations.add_duplicate env ticket old_values = Raise e ↔
  is_Some (old_values !! "resolution")
  ∧ ((getitem ticket RELDATA_FIELD = None ∧ e = AttributeError)
     ∨ (∃ data,
          getitem ticket RELDATA_FIELD = Some data
          ∧ getitem ticket "resolution" = Some "duplicate"
          ∧ add_relation env
              (Relation_new (Some "ticket") (ticket_id ticket)
                 (Some (strip "# " data)) (Some "duplicate"))
            = Raise e)).
Proof.
  unfold TicketRelations.add_duplicate. case_bool_decide as Hold.
  - destruct (getitem ticket RELDATA_FIELD) as [data|].
    + case_bool_decide as Hdup.
      * split.
        -- intros Hadd. split; [done|]. right. by exists data.
        -- intros (_ & [[? _]|(d & [= <-] & _ & Hadd)]); done.
      * split; [done|].
        intros (_ & [[? _]|(d & _ & Hd & _)]); done.
    + split.
      * intros [= <-]. split; [done|]. by left.
      * intros (_ & [[_ ->]|(d & ? & _)]); done.
  - split; [done|]. by intros [? _].
Qed.

(** X7: What [ticket_changed] raises: when the resolution is among the
    changed fields, [AttributeError] if the ticket has no relation data
    (whatever the new resolution is), and what the relation system raises
    for the duplicate relation if the ticket is resolved as a duplicate;
    otherwise nothing.  When it raises, the environment is left as it was,
    the transient rows included. *)
Theorem ticket_changed_raises (env : Env) (ticket : TicketObj)
    (old_values : gmap string pystr) (e : exn) :
  ((TicketRelations.ticket_changed env ticket old_values).2 = Raise e ↔
   is_Some (old_values !! "resolution")
   ∧ ((getitem ticket RELDATA_FIELD = None ∧ e = AttributeError)
      ∨ (∃ data,
           getitem ticket RELDATA_FIELD = Some data
           ∧ getitem ticket "resolution" = Some "duplicate"
           ∧ add_relation env
               (Relation_new (Some "ticket") (ticket_id ticket)
                  (Some (strip "# " data)) (Some "duplicate"))
             = Raise e)))
  ∧ ((TicketRelations.ticket_changed env ticket old_values).2 = Raise e →
     (TicketRelations.ticket_changed env ticket old_values).1 = env).
Proof.
  rewrite <- add_duplicate_raises. unfold TicketRelations.ticket_changed.
  destruct (TicketRelations.add_duplicate env ticket old_values) as [env1|e'];
    simpl; [by split|].
  split; [|done]. split; by intros [= ->].
Qed.

(** X8: When [ticket_changed] returns, it has removed from [ticket_change]
    and [ticket_custom] the relation data rows of this ticket and nothing
    else: the rows of other tickets and of other fields are all kept, and
    the tickets are untouched. *)
Theorem ticket_changed_frame (env env' : Env) (ticket : TicketObj)
    (old_values : gmap string pystr) :
  TicketRelations.ticket_changed env ticket old_values = (env', Ok ()) →
  tickets env' = tickets env
  ∧ (∀ r, r ∈ ticket_change env' ↔
          r ∈ ticket_change env
          ∧ ¬ (Some (chg_ticket r) = ticket_id ticket
               ∧ chg_field r = RELDATA_FIELD))
  ∧ (∀ r, r ∈ ticket_custom env' ↔
          r ∈ ticket_custom env
          ∧ ¬ (Some (cst_ticket r) = ticket_id ticket
               ∧ cst_name r = RELDATA_FIELD)).
Proof.
  unfold TicketRelations.ticket_changed.
  destruct (TicketRelations.add_duplicate env ticket old_values)
    as [env1|e] eqn:Hdup; [|done].
  apply add_duplicate_rows in Hdup as (Htickets & Hchange & Hcustom & _).
  intros [= <-]. simpl. rewrite Htickets, Hchange, Hcustom.
  split; [done|]. split; intros r; rewrite list_elem_of_filter; tauto.
Qed.

Lemma ticket_changed_frame_witness :
  tickets resolved_env = tickets fresh_env
  ∧ (∀ r, r ∈ ticket_change resolved_env ↔
          r ∈ ticket_change fresh_env
          ∧ ¬ (Some (chg_ticket r) = ticket_id resolved_1
               ∧ chg_field r = RELDATA_FIELD))
  ∧ (∀ r, r ∈ ticket_custom resolved_env ↔
          r ∈ ticket_custom fresh_env
          ∧ ¬ (Some (cst_ticket r) = ticket_id resolved_1
               ∧ cst_name r = RELDATA_FIELD)).
Proof.
  apply (ticket_changed_frame fresh_env resolved_env resolved_1
           resolution_changed).
  vm_compute. reflexivity.
Defined.

(** X9: What [ticket_changed] does to the relation table.  When it returns
    and the resolution is among the changed fields and the ticket is
    resolved as a duplicate, it has appended exactly one relation, of type
    [duplicate], from this ticket to the ticket named in the relation
    data, which the ticket page shows as
    [!#<ticket> ''is duplicate of'' #<target>].  In every other case, also
    when it raises, the relation table is left as it was. *)
Theorem ticket_changed_relations (env env' : Env) (ticket : TicketObj)
    (old_values : gmap string pystr) (r : result unit) :
  TicketRelations.ticket_changed env ticket old_values = (env', r) →
  (r = Ok () →
   is_Some (old_values !! "resolution") →
   getitem ticket "resolution" = Some "duplicate" →
   ∃ data row,
     getitem ticket RELDATA_FIELD = Some data
     ∧ relation env' = relation env ++ [row]
     ∧ realm row = Some "ticket"
     ∧ source row = ticket_id ticket
     ∧ dest row = Some (strip "# " data)
     ∧ type row = Some "duplicate"
     ∧ TktRelation.render row {["req" := TktRelation.DReq]}
       = Ok (TktRelation.RStr
               ("!#" +:+ default "None" (ticket_id ticket)
                +:+ " ''is duplicate of'' #" +:+ strip "# " data)))
  ∧ (¬ (r = Ok ()
        ∧ is_Some (old_values !! "resolution")
        ∧ getitem ticket "resolution" = Some "duplicate") →
     relation env' = relation env).
Proof.
  unfold TicketRelations.ticket_changed, TicketRelations.add_duplicate.
  case_bool_decide as Hold;
    [|intros [= <- <-]; split; [by intros _ ?|done]].
  destruct (getitem ticket RELDATA_FIELD) as [data|];
    [|intros [= <- <-]; split; done].
  case_bool_decide as Hdup;
    [|intros [= <- <-]; split; [by intros _ _ ?|done]].
  destruct (add_relation env _) as [env1|e] eqn:Hadd;
    [|intros [= <- <-]; split; done].
  apply add_relation_Ok in Hadd. subst env1. intros [= <- <-]. split.
  - intros _ _ _. eexists data, _. repeat (split; [done|]).
    unfold TktRelation.render, TktRelation.wiki_line, py_str. simpl.
    by destruct (ticket_id ticket).
  - intros Hnot. by destruct Hnot.
Qed.

Lemma ticket_changed_relations_witness :
  ∃ row,
    relation resolved_env = relation fresh_env ++ [row]
    ∧ realm row = Some "ticket"
    ∧ source row = Some "1"
    ∧ dest row = Some "2"
    ∧ type row = Some "duplicate"
    ∧ TktRelation.render row {["req" := TktRelation.DReq]}
      = Ok (TktRelation.RStr "!#1 ''is duplicate of'' #2").
Proof.
  destruct (proj1 (ticket_changed_relations fresh_env resolved_env resolved_1
                     resolution_changed (Ok ()) ltac:(vm_compute; reflexivity)))
    as (data & row & Hdata & Hrel & Hrealm & Hsrc & Hdst & Htype & Hrender).
  - reflexivity.
  - vm_compute. by eauto.
  - vm_compute. reflexivity.
  - injection Hdata as <-. exists row. by repeat split.
Defined.

(** X10: [ticket_created] removes from [ticket_custom] the relation data row
    of the new ticket and nothing else, leaves the other tables as they
    are, and doing it twice is the same as doing it once. *)
Theorem ticket_created_frame (env : Env) (ticket : TicketObj) :
  tickets (TicketRelations.ticket_created env ticket) = tickets env
  ∧ relation (TicketRelations.ticket_created env ticket) = relation env
  ∧ ticket_change (TicketRelations.ticket_created env ticket)
    = ticket_change env
  ∧ (∀ r, r ∈ ticket_custom (TicketRelations.ticket_created env ticket) ↔
          r ∈ ticket_custom env
          ∧ ¬ (Some (cst_ticket r) = ticket_id ticket
               ∧ cst_name r = RELDATA_FIELD))
  ∧ TicketRelations.ticket_created
      (TicketRelations.ticket_created env ticket) ticket
    = TicketRelations.ticket_created env ticket.
Proof.
  repeat (split; [done|]). split.
  - intros r. unfold TicketRelations.ticket_created. simpl.
    rewrite list_elem_of_filter. tauto.
  - unfold TicketRelations.ticket_created, delete_ticket_custom. simpl.
    f_equal. rewrite list_filter_filter. apply list_filter_iff. tauto.
Qed.

End ListenerFacts.

(** ** Sorting by type, continued *)

Section Sorting.

Lemma key_le_total (a b : pystr) : key_le a b = true ∨ key_le b a = true.
Proof.
  destruct a as [x|], b as [y|]; simpl; try (by left); try (by right).
  apply String.leb_total.
Qed.

Lemma key_le_refl (a : pystr) : key_le a a = true.
Proof. by destruct (key_le_total a a). Qed.

Lemma insert_by_type_perm (x : Relation) (l : list Relation) :
  insert_by_type x l ≡ₚ x :: l.
Proof.
  induction l as [|y l IH]; [done|]. simpl.
  destruct (key_le (type x) (type y)); [done|].
  rewrite IH. apply perm_swap.
Qed.

Lemma insert_by_type_hd (x y : Relation) (l : list Relation) :
  type_le y x → HdRel type_le y l → HdRel type_le y (insert_by_type x l).
Proof.
  intros Hyx Hy. destruct l as [|z l]; simpl; [by constructor|].
  destruct (key_le (type x) (type z)); constructor; [done|].
  by inversion Hy.
Qed.

Lemma insert_by_type_sorted (x : Relation) (l : list Relation) :
  Sorted type_le l → Sorted type_le (insert_by_type x l).
Proof.
  induction 1 as [|y l Hl IH Hy]; simpl; [by repeat constructor|].
  destruct (key_le (type x) (type y)) eqn:Hxy.
  - constructor; [by constructor|]. by constructor.
  - constructor; [done|]. apply insert_by_type_hd; [|done].
    unfold type_le. destruct (key_le_total (type x) (type y)); congruence.
Qed.

Lemma sorted_by_type_perm (l : list Relation) : sorted_by_type l ≡ₚ l.
Proof.
  induction l as [|x l IH]; [done|].
  unfold sorted_by_type in *. simpl. by rewrite insert_by_type_perm, IH.
Qed.

Lemma sorted_by_type_sorted (l : list Relation) :
  Sorted type_le (sorted_by_type l).
Proof.
  induction l as [|x l IH]; [constructor|].
  by apply insert_by_type_sorted.
Qed.

Lemma insert_by_type_filter (t : pystr) (x : Relation) (l : list Relation) :
  filter (fun r => type r = t) (insert_by_type x l)
  = filter (fun r => type r = t) (x :: l).
Proof.
  induction l as [|y l IH]; [done|]. simpl.
  destruct (key_le (type x) (type y)) eqn:Hxy; [done|].
  rewrite (filter_cons _ y), IH, !(filter_cons _ x), (filter_cons _ y).
  destruct (decide (type y = t)) as [Hy|Hy]; [|done].
  destruct (decide (type x = t)) as [Hx|Hx]; [|done].
  rewrite Hx, Hy, key_le_refl in Hxy. done.
Qed.

(** X18: [sorted] is stable: among the relations of one type, the order of
    the selection is kept, on the ticket page and on the management
    page. *)
Theorem sorted_by_type_stable (t : pystr) (l : list Relation) :
  filter (fun r => type r = t) (sorted_by_type l)
  = filter (fun r => type r = t) l.
Proof.
  induction l as [|x l IH]; [done|].
  unfold sorted_by_type in *. simpl.
  by rewrite insert_by_type_filter, !filter_cons, IH.
Qed.

End Sorting.

(** ** Matching the request path, continued *)

(** X11: When [match_request] accepts a request it changes nothing but the
    argument [id]: it sets it to the digits of the path, a non-empty run of
    digits, over whatever [id] the query string carried, and keeps every
    other argument; matching the result again gives the same request. *)
Theorem match_request_sets_only_id (req req' : Request) :
  TicketRelations.match_request req = (true, req') →
  ∃ digits,
    relations_line (path_info req) digits
    ∧ args req' !! "id" = Some digits
    ∧ (∀ k, k ≠ "id" → args req' !! k = args req !! k)
    ∧ path_info req' = path_info req ∧ method req' = method req
    ∧ sel req' = sel req ∧ warnings req' = warnings req
    ∧ notices req' = notices req
    ∧ TicketRelations.match_request req' = (true, req').
Proof.
  unfold TicketRelations.match_request.
  destruct (re_match (path_info req)) as [digits|] eqn:Hm; [|done].
  intros [= <-]. exists digits. split; [by apply re_match_Some|].
  split; [apply lookup_insert_eq|].
  split; [intros k Hk; by apply lookup_insert_ne|].
  repeat (split; [done|]). simpl. rewrite Hm.
  unfold set_args. simpl. by rewrite insert_insert_eq.
Qed.

Lemma match_request_sets_only_id_witness :
  ∃ digits,
    relations_line "/ticket/42/relations" digits
    ∧ args (set_args (request_for "/ticket/42/relations") {["id" := "42"]})
      !! "id" = Some digits.
Proof.
  destruct (match_request_sets_only_id
              (set_args (request_for "/ticket/42/relations") {["id" := "7"]})
              (set_args (request_for "/ticket/42/relations") {["id" := "42"]}))
    as (digits & Hline & Hid & _).
  - vm_compute. reflexivity.
  - exists digits. split; [exact Hline|exact Hid].
Defined.

(** ** The relation management handler, continued *)

Section ProcessRequestFacts.

Lemma requested_relation_raises (src dst rel_type : pystr) (e : exn) :
  TicketRelations.requested_relation src dst rel_type = Raise e ↔
  (rel_type = None ∧ e = TypeError)
  ∨ (rel_type = Some EmptyString ∧ e = IndexError).
Proof.
  unfold TicketRelations.requested_relation.
  destruct rel_type as [[|c rest]|].
  - split; [intros [= <-]; by right|]. by intros [[? _]|[_ ->]].
  - case_bool_decide; (split; [done|]); by intros [[? _]|[? _]].
  - split; [intros [= <-]; by left|]. by intros [[_ ->]|[? _]].
Qed.

(** An exception of the add form that the handler does not catch leaves
    the request without warning and without notice. *)
Lemma add_branch_uncaught (env : Env) (req : Request) (e : exn) :
  requested req = Raise e →
  TicketRelations.add_branch env req = (env, req, Raise e).
Proof.
  unfold requested, TicketRelations.add_branch. intros Hreq.
  rewrite Hreq. simpl.
  by apply requested_relation_raises in Hreq as [[_ ->]|[_ ->]].
Qed.

Lemma process_request_ticket_raises (env : Env) (req : Request) (e : exn) :
  perm_on req "TICKET_VIEW" TicketRelations.realm (args req !! "id") = true →
  Ticket env (args req !! "id") = Raise e →
  TicketRelations.process_request env req = (env, req, Raise e).
Proof.
  intros Hview Htkt. unfold TicketRelations.process_request.
  by rewrite Hview, Htkt.
Qed.

Lemma process_request_get (env : Env) (req : Request) (tkt : TicketObj) :
  perm_on req "TICKET_VIEW" TicketRelations.realm (args req !! "id") = true →
  Ticket env (args req !! "id") = Ok tkt →
  method req ≠ "POST" →
  TicketRelations.process_request env req
  = (env, req,
     Ok (Template
           (if truthy (args req !! "format")
            then "ticket_relations_fragment.html"
            else "manage_ticket_relations.html")
           (mkTemplateData tkt (args req !! "format")
              (sorted_by_type
                 (select env (Some "ticket") (ticket_id tkt) None None))
              (set_render_reverse <$>
                 sorted_by_type
                   (select env (Some "ticket") None (ticket_id tkt) None))))).
Proof.
  intros Hview Htkt Hget. unfold TicketRelations.process_request.
  rewrite Hview, Htkt. simpl. by rewrite bool_decide_eq_false_2.
Qed.

Lemma process_request_no_add (env : Env) (req : Request) (tkt : TicketObj) :
  post_admitted env req tkt →
  truthy (args req !! "add-relation") = false →
  TicketRelations.process_request env req
  = (if truthy (args req !! "remove-relation")
     then TicketRelations.remove_branch env req else (env, req),
     Ok (redirect_of req tkt)).
Proof.
  intros (Hview & Htkt & Hpost & Hmodify) Hadd.
  unfold TicketRelations.process_request.
  rewrite Hview, Htkt, Hmodify, Hadd. simpl.
  rewrite bool_decide_eq_true_2 by done.
  destruct (truthy (args req !! "remove-relation")); [|done].
  by destruct (TicketRelations.remove_branch env req).
Qed.

(** The ways [process_request] can go, by the checks it makes in turn. *)
Lemma process_request_cases (env : Env) (req : Request) :
  (perm_on req "TICKET_VIEW" TicketRelations.realm (args req !! "id") = false
   ∧ TicketRelations.process_request env req = (env, req, Raise PermissionError))
  ∨ (perm_on req "TICKET_VIEW" TicketRelations.realm (args req !! "id") = true
     ∧ ((Ticket env (args req !! "id") = Raise ResourceNotFound
         ∧ TicketRelations.process_request env req
           = (env, req, Raise ResourceNotFound))
        ∨ (∃ tkt,
             Ticket env (args req !! "id") = Ok tkt
             ∧ ((method req ≠ "POST"
                 ∧ ∃ name data,
                     TicketRelations.process_request env req
                     = (env, req, Ok (Template name data)))
                ∨ (method req = "POST"
                   ∧ perm_require req "TICKET_MODIFY" = false
                   ∧ TicketRelations.process_request env req
                     = (env, req, Raise PermissionError))
                ∨ (post_admitted env req tkt
                   ∧ truthy (args req !! "add-relation") = true
                   ∧ ∃ e, requested req = Raise e
                          ∧ TicketRelations.process_request env req
                            = (env, req, Raise e))
                ∨ (post_admitted env req tkt
                   ∧ ∃ env' req',
                       TicketRelations.process_request env req
                       = (env', req', Ok (redirect_of req tkt))))))).
Proof.
  destruct (perm_on req "TICKET_VIEW" TicketRelations.realm (args req !! "id"))
    eqn:Hview; [right|left; split; [done|by apply process_request_forbidden]].
  split; [done|].
  destruct (Ticket env (args req !! "id")) as [tkt|e] eqn:Htkt.
  - right. exists tkt. split; [done|].
    destruct (decide (method req = "POST")) as [Hpost|Hget].
    + right.
      destruct (perm_require req "TICKET_MODIFY") eqn:Hmodify;
        [right|left; repeat split; try done;
               by apply (process_request_read_only env req tkt)].
      assert (post_admitted env req tkt) as Hadm by done.
      destruct (truthy (args req !! "add-relation")) eqn:Hadd.
      * rewrite (process_request_add env req tkt Hadm Hadd).
        destruct (requested req) as [rel|e] eqn:Hreq.
        -- right. split; [done|].
           destruct (add_relation env rel) as [env'|e] eqn:Hrel.
           ++ rewrite (add_branch_accepted env env' req rel Hreq Hrel).
              by eauto.
           ++ rewrite (add_branch_rejected env req rel e Hreq Hrel).
              by eauto.
        -- left. split; [done|]. split; [done|]. exists e. split; [done|].
           by rewrite (add_branch_uncaught env req e Hreq).
      * right. split; [done|].
        rewrite (process_request_no_add env req tkt Hadm Hadd).
        destruct (truthy (args req !! "remove-relation")).
        -- destruct (TicketRelations.remove_branch env req) as [env' req'].
           by eauto.
        -- by eauto.
    + left. split; [done|].
      rewrite (process_request_get env req tkt Hview Htkt Hget). by eauto.
  - left. pose proof (Ticket_raise_kind _ _ _ Htkt) as ->.
    split; [done|]. by apply process_request_not_found.
Qed.

(** X12: A request that fails leaves no trace: whenever [process_request]
    raises, the environment and the request are as they were (no relation
    written, no warning, no notice), and what it raises is a permission
    error, a not-found error, or the [TypeError] or [IndexError] of a
    missing or empty relation type. *)
Theorem failed_request_leaves_no_trace (env env' : Env) (req req' : Request)
    (e : exn) :
  TicketRelations.process_request env req = (env', req', Raise e) →
  env' = env ∧ req' = req
  ∧ e ∈ [PermissionError; ResourceNotFound; TypeError; IndexError].
Proof.
  intros Hp.
  destruct (process_request_cases env req)
    as [[_ Hc]|[_ [(_ & Hc)|(tkt & _ & [(_ & name & data & Hc)
        |[(_ & _ & Hc)|[(_ & _ & e' & Hreq & Hc)|(_ & env1 & req1 & Hc)]]])]]];
    rewrite Hc in Hp; try discriminate Hp; injection Hp as <- <- <-;
    (split; [done|]); (split; [done|]).
  - by left.
  - right. by left.
  - by left.
  - apply requested_relation_raises in Hreq as [[_ ->]|[_ ->]].
    + right. right. by left.
    + right. right. right. by left.
Qed.

Lemma failed_request_leaves_no_trace_witness :
  fresh_env = fresh_env ∧ viewer_post = viewer_post
  ∧ PermissionError ∈ [PermissionError; ResourceNotFound; TypeError; IndexError].
Proof.
  apply (failed_request_leaves_no_trace fresh_env fresh_env viewer_post
           viewer_post PermissionError).
  vm_compute. reflexivity.
Defined.

(** X13: [process_request] raises a not-found error exactly when the user may
    view the ticket and the host finds no ticket for the id of the request,
    read as a number: [Ticket(self.env, tkt_id)] raises. *)
Theorem not_found_iff (env : Env) (req : Request) :
  (TicketRelations.process_request env req).2 = Raise ResourceNotFound ↔
  perm_on req "TICKET_VIEW" TicketRelations.realm (args req !! "id") = true
  ∧ Ticket env (args req !! "id") = Raise ResourceNotFound.
Proof.
  split.
  - intros Hp.
    destruct (process_request_cases env req)
      as [[_ Hc]|[Hview [(Hnone & Hc)|(tkt & _ & [(_ & name & data & Hc)
          |[(_ & _ & Hc)|[(_ & _ & e' & Hreq & Hc)|(_ & env1 & req1 & Hc)]]])]]];
      rewrite Hc in Hp; try discriminate Hp.
    + done.
    + simpl in Hp. injection Hp as ->.
      by apply requested_relation_raises in Hreq as [[_ ?]|[_ ?]].
  - intros (Hview & Hnone).
    by rewrite (process_request_not_found env req Hview Hnone).
Qed.

(** The id of the path is read as a number: [/ticket/01/relations] shows
    the relations of ticket 1, and [/ticket/7/relations] is not found where
    there is no ticket 7. *)
Example leading_zero_found :
  ∃ name data,
    (TicketRelations.process_request fresh_env
       (TicketRelations.match_request
          (mkRequest "/ticket/01/relations" "GET" ∅ []
             (fun _ _ _ => true) (fun _ => true) [] [])).2).2
    = Ok (Template name data)
    ∧ ticket_id (data_ticket data) = Some "1".
Proof. eexists _, _. vm_compute. split; reflexivity. Qed.

Example missing_not_found :
  (TicketRelations.process_request fresh_env missing_request).2
  = Raise ResourceNotFound.
Proof. vm_compute. reflexivity. Qed.

(** X14: [process_request] raises a permission error exactly when the user may
    not view the ticket, or may view it, the ticket exists, the request is a
    POST and the user may not modify tickets. *)
Theorem permission_error_iff (env : Env) (req : Request) :
  (TicketRelations.process_request env req).2 = Raise PermissionError ↔
  perm_on req "TICKET_VIEW" TicketRelations.realm (args req !! "id") = false
  ∨ (perm_on req "TICKET_VIEW" TicketRelations.realm (args req !! "id") = true
     ∧ (∃ tkt, Ticket env (args req !! "id") = Ok tkt)
     ∧ method req = "POST"
     ∧ perm_require req "TICKET_MODIFY" = false).
Proof.
  split.
  - intros Hp.
    destruct (process_request_cases env req)
      as [[Hview Hc]|[Hview [(Hnone & Hc)|(tkt & Htkt & [(_ & name & data & Hc)
          |[(Hpost & Hmodify & Hc)|[(_ & _ & e' & Hreq & Hc)|(_ & env1 & req1 & Hc)]]])]]];
      rewrite Hc in Hp; try discriminate Hp.
    + by left.
    + right. by eauto.
    + simpl in Hp. injection Hp as ->.
      by apply requested_relation_raises in Hreq as [[_ ?]|[_ ?]].
  - intros [Hview|(Hview & [tkt Htkt] & Hpost & Hmodify)].
    + by rewrite (process_request_forbidden env req Hview).
    + by rewrite (process_request_read_only env req tkt Hview Htkt Hpost Hmodify).
Qed.

(** X15: The errors of the add form that the handler does not catch: an
    admitted add-relation POST raises [TypeError] exactly when the
    relation type is missing and [IndexError] exactly when it is empty;
    no other request raises them. *)
Theorem relation_type_errors_iff (env : Env) (req : Request) :
  ((TicketRelations.process_request env req).2 = Raise TypeError ↔
   ∃ tkt, post_admitted env req tkt
          ∧ truthy (args req !! "add-relation") = true
          ∧ args req !! "relation-type" = None)
  ∧ ((TicketRelations.process_request env req).2 = Raise IndexError ↔
     ∃ tkt, post_admitted env req tkt
            ∧ truthy (args req !! "add-relation") = true
            ∧ args req !! "relation-type" = Some EmptyString).
Proof.
  assert (∀ e, e = TypeError ∨ e = IndexError →
            (TicketRelations.process_request env req).2 = Raise e →
            ∃ tkt, post_admitted env req tkt
                   ∧ truthy (args req !! "add-relation") = true
                   ∧ requested req = Raise e) as Hfwd.
  { intros e He Hp.
    destruct (process_request_cases env req)
      as [[_ Hc]|[_ [(_ & Hc)|(tkt & _ & [(_ & name & data & Hc)
          |[(_ & _ & Hc)|[(Hadm & Hadd & e' & Hreq & Hc)|(_ & env1 & req1 & Hc)]]])]]];
      rewrite Hc in Hp; simpl in Hp;
      try (destruct He as [-> | ->]; discriminate Hp).
    injection Hp as ->. by exists tkt. }
  assert (∀ e tkt, post_admitted env req tkt →
            truthy (args req !! "add-relation") = true →
            requested req = Raise e →
            (TicketRelations.process_request env req).2 = Raise e) as Hbwd.
  { intros e tkt Hadm Hadd Hreq.
    rewrite (process_request_add env req tkt Hadm Hadd).
    by rewrite (add_branch_uncaught env req e Hreq). }
  split; split.
  - intros Hp. destruct (Hfwd TypeError (or_introl eq_refl) Hp)
      as (tkt & Hadm & Hadd & Hreq).
    exists tkt. split; [done|]. split; [done|].
    by apply requested_relation_raises in Hreq as [[? _]|[_ ?]].
  - intros (tkt & Hadm & Hadd & Htype). apply (Hbwd _ tkt Hadm Hadd).
    apply requested_relation_raises. by left.
  - intros Hp. destruct (Hfwd IndexError (or_intror eq_refl) Hp)
      as (tkt & Hadm & Hadd & Hreq).
    exists tkt. split; [done|]. split; [done|].
    by apply requested_relation_raises in Hreq as [[_ ?]|[? _]].
  - intros (tkt & Hadm & Hadd & Htype). apply (Hbwd _ tkt Hadm Hadd).
    apply requested_relation_raises. by right.
Qed.

(** X26: What the add form does catch: for an admitted add-relation POST
    whose relation type is neither missing nor empty, a relation that the
    relation system rejects, because its type is unrecognized, because the
    host loads no ticket for its source or for its destination, or because
    the same relation is stored already, becomes a warning of the request:
    no notice is added, the environment is left as it was, nothing is
    retried, and the request ends with its redirect. *)
Theorem rejected_add_warns (env : Env) (req : Request) (tkt : TicketObj)
    (rel : Relation) :
  post_admitted env req tkt →
  truthy (args req !! "add-relation") = true →
  requested req = Ok rel →
  recognized (type rel) = false
  ∨ Ticket env (source rel) = Raise ResourceNotFound
  ∨ Ticket env (dest rel) = Raise ResourceNotFound
  ∨ (∃ row, row ∈ relation env ∧ same_relation rel row = true) →
  ∃ e, add_relation env rel = Raise e
       ∧ TicketRelations.caught e = true
       ∧ TicketRelations.process_request env req
         = (env, add_warning req e, Ok (redirect_of req tkt))
       ∧ notices (add_warning req e) = notices req
       ∧ warnings (add_warning req e) = warnings req ++ [e].
Proof.
  intros Hadm Hadd Hreq Hinvalid.
  assert (∀ id, Ticket env id = Raise ResourceNotFound → resolves env id = false)
    as Hres.
  { intros id Hid. unfold resolves. rewrite Hid. by destruct id. }
  destruct (add_relation_invalid env rel) as [e He].
  { destruct Hinvalid as [?|[?|[?|?]]]; [by left| | |by repeat right].
    - right. left. by apply Hres.
    - right. right. left. by apply Hres. }
  exists e. split; [done|].
  split; [by destruct (add_relation_raises _ _ _ He) as [-> | ->]|].
  rewrite (process_request_add env req tkt Hadm Hadd).
  by rewrite (add_branch_rejected env req rel e Hreq He).
Qed.

Lemma rejected_add_warns_witness :
  ∃ e,
    TicketRelations.process_request fresh_env
      (post_form [("add-relation", "Add"); ("current-tkt", "1");
                  ("other-tkt", "2"); ("relation-type", "follows")] [])
    = (fresh_env,
       add_warning
         (post_form [("add-relation", "Add"); ("current-tkt", "1");
                     ("other-tkt", "2"); ("relation-type", "follows")] [])
         e,
       Ok (Redirect (Href "/ticket/1/relations")))
    ∧ warnings
        (add_warning
           (post_form [("add-relation", "Add"); ("current-tkt", "1");
                       ("other-tkt", "2"); ("relation-type", "follows")] [])
           e)
      = [e].
Proof.
  destruct (rejected_add_warns fresh_env
              (post_form [("add-relation", "Add"); ("current-tkt", "1");
                          ("other-tkt", "2"); ("relation-type", "follows")] [])
              (mkTicket (Some "1") {["status" := "new"]})
              (Relation_new (Some "ticket") (Some "1") (Some "2")
                 (Some "follows")))
    as (e & _ & _ & Hp & _ & Hw).
  - repeat split; vm_compute; reflexivity.
  - vm_compute. reflexivity.
  - vm_compute. reflexivity.
  - left. vm_compute. reflexivity.
  - exists e. split; [exact Hp|exact Hw].
Defined.

(** X16: A request that is not a POST only reads: the environment and the
    request are as they were and no redirect is sent; a POST never renders
    a template: it ends with a redirect or with an exception. *)
Theorem get_reads_post_redirects (env : Env) (req : Request) :
  (method req ≠ "POST" →
   ∃ r, TicketRelations.process_request env req = (env, req, r)
        ∧ ∀ to, r ≠ Ok (Redirect to))
  ∧ (method req = "POST" →
     ∀ name data,
       (TicketRelations.process_request env req).2 ≠ Ok (Template name data)).
Proof.
  split.
  - intros Hget.
    destruct (process_request_cases env req)
      as [[_ Hc]|[_ [(_ & Hc)|(tkt & _ & [(_ & name & data & Hc)
          |[(Hpost & _)|[([_ [_ [Hpost _]]] & _)|([_ [_ [Hpost _]]] & _)]]])]]];
      try done; rewrite Hc; by eauto.
  - intros Hpost name data.
    destruct (process_request_cases env req)
      as [[_ Hc]|[_ [(_ & Hc)|(tkt & _ & [(Hget & _)
          |[(_ & _ & Hc)|[(_ & _ & e' & _ & Hc)|(_ & env1 & req1 & Hc)]]])]]];
      try done; by rewrite Hc.
Qed.

Lemma get_reads_post_redirects_witness :
  (∃ r, TicketRelations.process_request duplicate_env
          (set_args (request_for "/ticket/1/relations") {["id" := "1"]})
        = (duplicate_env,
           set_args (request_for "/ticket/1/relations") {["id" := "1"]}, r)
        ∧ ∀ to, r ≠ Ok (Redirect to))
  ∧ ∀ name data,
      (TicketRelations.process_request duplicate_env
         (post_form [("remove-relation", "Remove")] ["1"])).2
      ≠ Ok (Template name data).
Proof.
  split.
  - apply (proj1 (get_reads_post_redirects duplicate_env
                    (set_args (request_for "/ticket/1/relations")
                       {["id" := "1"]}))).
    vm_compute. discriminate.
  - apply (proj2 (get_reads_post_redirects duplicate_env
                    (post_form [("remove-relation", "Remove")] ["1"]))).
    vm_compute. reflexivity.
Defined.

(** X17: The lists of the management page: for a request that is not a POST,
    by a user who may view the ticket, the template gets every relation
    that starts at the ticket exactly once, in the order of their types,
    and every relation that ends at it exactly once, in the order of
    their types and marked for reverse rendering. *)
Theorem template_lists (env : Env) (req : Request) (tkt : TicketObj) :
  perm_on req "TICKET_VIEW" TicketRelations.realm (args req !! "id") = true →
  Ticket env (args req !! "id") = Ok tkt →
  method req ≠ "POST" →
  ∃ data,
    TicketRelations.process_request env req
    = (env, req,
       Ok (Template (if truthy (args req !! "format")
                     then "ticket_relations_fragment.html"
                     else "manage_ticket_relations.html") data))
    ∧ data_ticket data = tkt
    ∧ data_is_start data
      ≡ₚ select env (Some "ticket") (ticket_id tkt) None None
    ∧ Sorted type_le (data_is_start data)
    ∧ data_is_end data
      ≡ₚ set_render_reverse
           <$> select env (Some "ticket") None (ticket_id tkt) None
    ∧ Sorted type_le (data_is_end data)
    ∧ Forall (fun r => render_reverse r = true) (data_is_end data).
Proof.
  intros Hview Htkt Hget.
  rewrite (process_request_get env req tkt Hview Htkt Hget).
  eexists. split; [done|]. simpl. split; [done|].
  split; [apply sorted_by_type_perm|].
  split; [apply sorted_by_type_sorted|].
  split; [by rewrite sorted_by_type_perm|].
  split.
  - apply (Sorted_fmap _ type_le); [done|apply sorted_by_type_sorted].
  - apply Forall_fmap, Forall_forall. done.
Qed.

Lemma template_lists_witness :
  ∃ data,
    TicketRelations.process_request duplicate_env
      (set_args (request_for "/ticket/2/relations") {["id" := "2"]})
    = (duplicate_env,
       set_args (request_for "/ticket/2/relations") {["id" := "2"]},
       Ok (Template "manage_ticket_relations.html" data))
    ∧ Forall (fun r => render_reverse r = true) (data_is_end data).
Proof.
  destruct (template_lists duplicate_env
              (set_args (request_for "/ticket/2/relations") {["id" := "2"]})
              (mkTicket (Some "2") {["status" := "new"]}))
    as (data & Hp & _ & _ & _ & _ & _ & Hend).
  - reflexivity.
  - vm_compute. reflexivity.
  - vm_compute. discriminate.
  - exists data. split; [exact Hp|exact Hend].
Defined.

(** X19: When the add-relation argument is set, the selected ids play no
    part, even if the remove-relation argument is set too: the add branch
    is taken and nothing is removed on behalf of the selection. *)
Theorem add_ignores_selection (env : Env) (req : Request) (ids : list string) :
  truthy (args req !! "add-relation") = true →
  TicketRelations.process_request env (with_sel req ids)
  = let '(env', req', r) := TicketRelations.process_request env req in
    (env', with_sel req' ids, r).
Proof.
  intros Hadd. unfold TicketRelations.process_request. simpl.
  destruct (negb (perm_on req _ _ _)); [done|].
  destruct (Ticket env (args req !! "id")) as [tkt|e]; [|done].
  case_bool_decide; [|done].
  destruct (negb (perm_require req _)); [done|].
  rewrite Hadd. unfold TicketRelations.add_branch. simpl.
  destruct (TicketRelations.requested_relation _ _ _) as [rel|e]; simpl.
  - destruct (add_relation env rel) as [env'|e]; simpl; [done|].
    by destruct (TicketRelations.caught e).
  - by destruct (TicketRelations.caught e).
Qed.

Lemma add_ignores_selection_witness :
  TicketRelations.process_request duplicate_env
    (with_sel (post_form [("add-relation", "Add"); ("remove-relation", "Remove");
                          ("current-tkt", "2"); ("other-tkt", "1");
                          ("relation-type", "blocking")] []) ["1"])
  = let '(env', req', r) :=
      TicketRelations.process_request duplicate_env
        (post_form [("add-relation", "Add"); ("remove-relation", "Remove");
                    ("current-tkt", "2"); ("other-tkt", "1");
                    ("relation-type", "blocking")] []) in
    (env', with_sel req' ["1"], r).
Proof.
  apply (add_ignores_selection duplicate_env
           (post_form [("add-relation", "Add"); ("remove-relation", "Remove");
                       ("current-tkt", "2"); ("other-tkt", "1");
                       ("relation-type", "blocking")] []) ["1"]).
  vm_compute. reflexivity.
Defined.

End ProcessRequestFacts.

(** ** The add form and its options *)

Section Options.

Lemma reverse_option_mirrors (a b : pystr) (c : Ascii.ascii) (rest : string) :
  c ≠ BANG →
  TicketRelations.requested_relation a b (Some (String BANG (String c rest)))
  = TicketRelations.requested_relation b a (Some (String c rest)).
Proof.
  intros Hc. unfold TicketRelations.requested_relation.
  by rewrite bool_decide_eq_true_2, bool_decide_eq_false_2.
Qed.

(** X20: The reverse option of the form is the forward option seen from the
    other ticket: an add-relation request for [!t] from ticket [a] to
    ticket [b] is answered as the same request with the two tickets
    exchanged and the type [t]: the same relation is stored or rejected,
    with the same notice or warning and the same response. *)
Theorem reverse_form_mirrors (env : Env) (req : Request) (a b : string)
    (c : Ascii.ascii) (rest : string) :
  c ≠ BANG →
  truthy (args req !! "add-relation") = true →
  args req !! "current-tkt" = Some a →
  args req !! "other-tkt" = Some b →
  args req !! "relation-type" = Some (String BANG (String c rest)) →
  TicketRelations.process_request env (mirrored_form req b a (String c rest))
  = let '(env', req', r) := TicketRelations.process_request env req in
    (env', set_args req' (args (mirrored_form req b a (String c rest))), r).
Proof.
  intros Hc Hadd Ha Hb Htype.
  set (m := args (mirrored_form req b a (String c rest))).
  assert (∀ k, k ≠ "current-tkt" → k ≠ "other-tkt" → k ≠ "relation-type" →
            m !! k = args req !! k) as Hother.
  { intros k H1 H2 H3. unfold m, mirrored_form, set_args. cbn [args].
    by rewrite !lookup_insert_ne. }
  assert (m !! "current-tkt" = Some b) as Hcur.
  { unfold m, mirrored_form, set_args. cbn [args]. apply lookup_insert_eq. }
  assert (m !! "other-tkt" = Some a) as Hoth.
  { unfold m, mirrored_form, set_args. cbn [args].
    rewrite lookup_insert_ne by done. apply lookup_insert_eq. }
  assert (m !! "relation-type" = Some (String c rest)) as Hty.
  { unfold m, mirrored_form, set_args. cbn [args].
    rewrite !lookup_insert_ne by done. apply lookup_insert_eq. }
  unfold TicketRelations.process_request, TicketRelations.add_branch.
  change (args (mirrored_form req b a (String c rest))) with m.
  change (perm_on (mirrored_form req b a (String c rest))) with (perm_on req).
  change (perm_require (mirrored_form req b a (String c rest)))
    with (perm_require req).
  change (method (mirrored_form req b a (String c rest))) with (method req).
  change (path_info (mirrored_form req b a (String c rest)))
    with (path_info req).
  rewrite !(Hother "id"), !(Hother "format"), !(Hother "add-relation") by done.
  rewrite Hcur, Hoth, Hty, Ha, Hb, Htype, Hadd.
  rewrite (reverse_option_mirrors (Some a) (Some b) c rest Hc).
  destruct (negb (perm_on req _ _ _)); [done|].
  destruct (Ticket env (args req !! "id")) as [tkt|e]; [|done].
  case_bool_decide; [|done].
  destruct (negb (perm_require req _)); [done|].
  destruct (TicketRelations.requested_relation _ _ _) as [rel|e]; simpl.
  - destruct (add_relation env rel) as [env'|e]; simpl; [done|].
    by destruct (TicketRelations.caught e).
  - by destruct (TicketRelations.caught e).
Qed.

Lemma reverse_form_mirrors_witness :
  TicketRelations.process_request fresh_env
    (mirrored_form
       (post_form [("add-relation", "Add"); ("current-tkt", "1");
                   ("other-tkt", "2"); ("relation-type", "!blocking")] [])
       "2" "1" "blocking")
  = let '(env', req', r) :=
      TicketRelations.process_request fresh_env
        (post_form [("add-relation", "Add"); ("current-tkt", "1");
                    ("other-tkt", "2"); ("relation-type", "!blocking")] []) in
    (env',
     set_args req'
       (args (mirrored_form
                (post_form [("add-relation", "Add"); ("current-tkt", "1");
                            ("other-tkt", "2"); ("relation-type", "!blocking")] [])
                "2" "1" "blocking")),
     r).
Proof.
  apply (reverse_form_mirrors fresh_env
           (post_form [("add-relation", "Add"); ("current-tkt", "1");
                       ("other-tkt", "2"); ("relation-type", "!blocking")] [])
           "1" "2" (Ascii.ascii_of_nat 98) "locking").
  - vm_compute. discriminate.
  - vm_compute. reflexivity.
  - vm_compute. reflexivity.
  - vm_compute. reflexivity.
  - vm_compute. reflexivity.
Defined.

(** X21: The relation types the handler can store are exactly the values the
    select control offers: a submitted relation type leads to a relation
    of a recognized type if and only if it is one of the option values,
    the four types and the four types with a leading [!]. *)
Theorem offered_types_accepted (aright aleft : string) (src dst : pystr)
    (value : string) :
  (∃ rel, TicketRelations.requested_relation src dst (Some value) = Ok rel
          ∧ recognized (type rel) = true)
  ↔ value ∈ (rel_options aright aleft).*1.
Proof.
  assert ((rel_options aright aleft).*1
          = [ "blocking"; "!blocking"; "relation"; "!relation";
              "parentchild"; "!parentchild"; "duplicate"; "!duplicate" ])
    as -> by reflexivity.
  split.
  - intros (rel & Hreq & Hrec).
    unfold TicketRelations.requested_relation in Hreq.
    destruct value as [|c rest]; [done|].
    case_bool_decide as Hc; injection Hreq as <-; simpl in Hrec;
      apply bool_decide_eq_true in Hrec;
      change (TktRelation.relations.*1)
        with ["blocking"; "relation"; "parentchild"; "duplicate"] in Hrec;
      rewrite !elem_of_cons, elem_of_nil in Hrec.
    + subst c. rewrite !elem_of_cons, elem_of_nil.
      destruct Hrec as [->|[->|[->|[->|[]]]]]; tauto.
    + rewrite !elem_of_cons, elem_of_nil.
      destruct Hrec as [->|[->|[->|[->|[]]]]]; tauto.
  - rewrite !elem_of_cons, elem_of_nil.
    intros [->|[->|[->|[->|[->|[->|[->|[->|[]]]]]]]]];
      eexists; (split; [reflexivity|reflexivity]).
Qed.

Example options_with_arrows :
  rel_options "->" "<-"
  = [ ("blocking", "is blocking ->"); ("!blocking", "<- is blocked by");
      ("relation", "relates to ->"); ("!relation", "<- is related to");
      ("parentchild", "is parent of ->"); ("!parentchild", "<- is child of");
      ("duplicate", "is duplicate of ->");
      ("!duplicate", "<- is duplicated by") ].
Proof. reflexivity. Qed.

End Options.

(** ** Rendering, continued *)

Section RenderFacts.
Import TktRelation.

(** With only the request in the data, [render] gives wiki text. *)
Lemma render_link (rel : Relation) :
  ∃ wiki, render rel {["req" := DReq]} = Ok (RStr wiki).
Proof.
  rewrite render_request by done.
  rewrite lookup_singleton_ne by done. simpl. by eauto.
Qed.

(** The list comprehension [[rel.render(data) for rel in rels]] with the
    request in the data: every relation gives one line of wiki text. *)
Lemma render_links (rels : list Relation) :
  ∃ links,
    mapM (fun rel => render rel {["req" := DReq]}) rels = Ok links
    ∧ length links = length rels
    ∧ ∀ link, link ∈ links → ∃ wiki, link = RStr wiki.
Proof.
  induction rels as [|rel rels (links & Hmap & Hlen & Hwiki)].
  - exists []. repeat split. by intros link ?%elem_of_nil.
  - destruct (render_link rel) as [wiki Hrel].
    exists (RStr wiki :: links). split; [|split].
    + cbn [mapM]. rewrite Hrel, Hmap. reflexivity.
    + simpl. by rewrite Hlen.
    + intros link [->|Hlink]%elem_of_cons; [by eauto|by apply Hwiki].
Qed.

(** X22: The markup is the wiki text, formatted: with the request in the
    data, any format other than ['wiki'] gives the span built from exactly
    the wiki line that the format ['wiki'], or no format, gives:
    [!#<source> ''<label>'' #<dest>], or with the two ends exchanged for a
    relation shown in reverse. *)
Theorem render_markup_of_wiki (self : Relation) (data : gmap string dataval)
    (f : dataval) :
  data !! "req" = Some DReq →
  f ≠ DVal (Some "wiki") →
  let wiki :=
    if render_reverse self
    then "!#" +:+ default "None" (dest self) +:+ " ''"
         +:+ default "None" (relations_get (type self)).2 +:+ "'' #"
         +:+ default "None" (source self)
    else "!#" +:+ default "None" (source self) +:+ " ''"
         +:+ default "None" (relations_get (type self)).1 +:+ "'' #"
         +:+ default "None" (dest self) in
  render self (delete "format" data) = Ok (RStr wiki)
  ∧ render self (<["format" := DVal (Some "wiki")]> data) = Ok (RStr wiki)
  ∧ render self (<["format" := f]> data) = Ok (RSpan wiki).
Proof.
  intros Hreq Hf wiki.
  rewrite !render_request.
  - rewrite lookup_delete_eq, !lookup_insert_eq. simpl.
    rewrite (bool_decide_eq_false_2 _ Hf).
    unfold wiki. by destruct (render_reverse self).
  - by rewrite (lookup_insert_ne _ "format" "req").
  - by rewrite (lookup_insert_ne _ "format" "req").
  - by rewrite (lookup_delete_ne _ "format" "req").
Qed.

Lemma render_markup_of_wiki_witness :
  render (mkRelation (Some 1%N) (Some "ticket") (Some "3") (Some "4")
            (Some "blocking") false)
    (delete "format" {["req" := DReq]})
  = Ok (RStr "!#3 ''is blocking'' #4")
  ∧ render (mkRelation (Some 1%N) (Some "ticket") (Some "3") (Some "4")
              (Some "blocking") false)
      (<["format" := DVal (Some "wiki")]> {["req" := DReq]})
    = Ok (RStr "!#3 ''is blocking'' #4")
  ∧ render (mkRelation (Some 1%N) (Some "ticket") (Some "3") (Some "4")
              (Some "blocking") false)
      (<["format" := DVal (Some "html")]> {["req" := DReq]})
    = Ok (RSpan "!#3 ''is blocking'' #4").
Proof.
  apply (render_markup_of_wiki
           (mkRelation (Some 1%N) (Some "ticket") (Some "3") (Some "4")
              (Some "blocking") false)
           {["req" := DReq]} (DVal (Some "html"))).
  - reflexivity.
  - discriminate.
Defined.

(** X23: The relations field of the ticket page: [create_relations_wiki]
    raises nothing; it renders one wiki line for each relation that starts
    at the ticket and one for each relation that ends at it, never markup,
    and reports that the ticket has relations exactly when one of the two
    selections is not empty. *)
Theorem relations_wiki_links (env : Env) (ticket : TicketObj) :
  let starts := select env (Some "ticket") (ticket_id ticket) None None in
  let ends := select env (Some "ticket") None (ticket_id ticket) None in
  ∃ links rev_links have_relations,
    TicketRelations.create_relations_wiki env ticket
    = Ok (links, rev_links, have_relations)
    ∧ length links = length starts
    ∧ length rev_links = length ends
    ∧ (∀ link, link ∈ links ++ rev_links → ∃ wiki, link = RStr wiki)
    ∧ (have_relations = false ↔ starts = [] ∧ ends = []).
Proof.
  intros starts ends. unfold TicketRelations.create_relations_wiki.
  fold starts. fold ends. cbn zeta.
  assert (∀ l, sorted_by_type l = [] ↔ l = []) as Hnil.
  { intros l. by rewrite <- !Permutation_nil_r, sorted_by_type_perm. }
  destruct (render_links (sorted_by_type starts))
    as (links & -> & Hlen & Hwiki).
  destruct (render_links (set_render_reverse <$> sorted_by_type ends))
    as (rev_links & Hrev & Hrlen & Hrwiki).
  cbn [mbind result_bind]. rewrite Hrev. cbn [mbind result_bind mret result_ret].
  eexists _, _, _. split; [reflexivity|].
  split; [by rewrite Hlen, sorted_by_type_perm|].
  split; [by rewrite Hrlen, length_fmap, sorted_by_type_perm|].
  split.
  - intros link [Hlink|Hlink]%elem_of_app; [by apply Hwiki|by apply Hrwiki].
  - rewrite orb_false_iff, !negb_false_iff, !bool_decide_eq_true.
    split.
    + intros [Hends Hstarts]. apply fmap_nil_inv in Hends.
      by rewrite Hnil in Hends, Hstarts.
    + intros [-> ->]. done.
Qed.

End RenderFacts.

(** ** From the path to the page *)

Section Routing.

Lemma match_request_accepts (req req' : Request) :
  TicketRelations.match_request req = (true, req') →
  ∃ digits,
    relations_line (path_info req) digits
    ∧ args req' !! "id" = Some digits
    ∧ path_info req' = path_info req.
Proof.
  unfold TicketRelations.match_request.
  destruct (re_match (path_info req)) as [digits|] eqn:Hm; [|done].
  intros [= <-]. exists digits. split; [by apply re_match_Some|].
  split; [apply lookup_insert_eq|done].
Qed.

(** X24: The page shows the ticket of the path: when [match_request] has
    accepted a request and [process_request] renders a template for it,
    the ticket in the template data is the ticket the host loads for the
    run of digits in the path. *)
Theorem matched_request_shows_ticket (env env' : Env) (req req' req'' : Request)
    (name : string) (data : TemplateData) :
  TicketRelations.match_request req = (true, req') →
  TicketRelations.process_request env req' = (env', req'', Ok (Template name data)) →
  ∃ digits,
    relations_line (path_info req) digits
    ∧ Ticket env (Some digits) = Ok (data_ticket data).
Proof.
  intros (digits & Hline & Hid & _)%match_request_accepts Hp.
  exists digits. split; [done|].
  destruct (process_request_cases env req')
    as [[_ Hc]|[Hview [(_ & Hc)|(tkt & Htkt & [(Hget & _)
        |[(_ & _ & Hc)|[(_ & _ & e' & _ & Hc)|(_ & env1 & req1 & Hc)]]])]]];
    try (rewrite Hc in Hp; discriminate Hp).
  rewrite (process_request_get env req' tkt Hview Htkt Hget) in Hp.
  injection Hp as _ _ _ <-. simpl.
  by rewrite Hid in Htkt.
Qed.

Lemma matched_request_shows_ticket_witness :
  ∃ digits,
    relations_line "/ticket/02/relations" digits
    ∧ Ticket duplicate_env (Some digits)
      = Ok (mkTicket (Some "2") {["status" := "new"]}).
Proof.
  apply (matched_request_shows_ticket duplicate_env duplicate_env
           (request_for "/ticket/02/relations")
           (set_args (request_for "/ticket/02/relations") {["id" := "02"]})
           (set_args (request_for "/ticket/02/relations") {["id" := "02"]})
           "manage_ticket_relations.html"
           (mkTemplateData (mkTicket (Some "2") {["status" := "new"]}) None
              []
              [ mkRelation (Some 1%N) (Some "ticket") (Some "1") (Some "2")
                  (Some "duplicate") true ])).
  - vm_compute. reflexivity.
  - vm_compute. reflexivity.
Defined.

(** X25: After a POST the user is back at the same ticket: when
    [match_request] has accepted a request and [process_request] answers
    it with a redirect, the host loads a ticket for the run of digits in
    the path, and the redirect goes to the page of that ticket (when the
    form was shown in the dialog) or to the very path of the request,
    which [match_request] accepts again. *)
Theorem post_redirects_to_same_ticket (env env' : Env) (req req' req'' : Request)
    (to : target) :
  TicketRelations.match_request req = (true, req') →
  TicketRelations.process_request env req' = (env', req'', Ok (Redirect to)) →
  ∃ digits tkt,
    relations_line (path_info req) digits
    ∧ Ticket env (Some digits) = Ok tkt
    ∧ (to = ResourceUrl (ticket_id tkt)
       ∨ (to = Href (path_info req)
          ∧ re_match (path_info req) = Some digits)).
Proof.
  intros (digits & Hline & Hid & Hpath)%match_request_accepts Hp.
  exists digits.
  destruct (process_request_cases env req')
    as [[_ Hc]|[Hview [(_ & Hc)|(tkt & Htkt & [(_ & n & d & Hc)
        |[(_ & _ & Hc)|[(_ & _ & e' & _ & Hc)|(_ & env1 & req1 & Hc)]]])]]];
    rewrite Hc in Hp; try discriminate Hp.
  injection Hp as _ _ <-. exists tkt.
  rewrite Hid in Htkt. split; [done|]. split; [done|].
  unfold redirect_of. destruct (truthy (args req' !! "format")).
  - by left.
  - right. rewrite Hpath. split; [done|]. by apply re_match_Some.
Qed.

Lemma post_redirects_to_same_ticket_witness :
  ∃ digits tkt,
    relations_line "/ticket/01/relations" digits
    ∧ Ticket duplicate_env (Some digits) = Ok tkt
    ∧ (ResourceUrl (Some "1") = ResourceUrl (ticket_id tkt)
       ∨ (ResourceUrl (Some "1") = Href "/ticket/01/relations"
          ∧ re_match "/ticket/01/relations" = Some digits)).
Proof.
  apply (post_redirects_to_same_ticket duplicate_env
           (set_relation duplicate_env [])
           (mkRequest "/ticket/01/relations" "POST"
              {["remove-relation" := "Remove"; "format" := "fragment"]}
              ["1"] (fun _ _ _ => true) (fun _ => true) [] [])
           (mkRequest "/ticket/01/relations" "POST"
              {["id" := "01"; "remove-relation" := "Remove";
                "format" := "fragment"]}
              ["1"] (fun _ _ _ => true) (fun _ => true) [] [])
           (add_notice
              (mkRequest "/ticket/01/relations" "POST"
                 {["id" := "01"; "remove-relation" := "Remove";
                   "format" := "fragment"]}
                 ["1"] (fun _ _ _ => true) (fun _ => true) [] [])
              (RelationDeleted (Some "1") (Some "2")))
           (ResourceUrl (Some "1"))).
  - vm_compute. reflexivity.
  - vm_compute. reflexivity.
Defined.

End Routing.
